(** * CSV merger: a shallow embedding of [merger.py] and its properties

  The development follows the layout of the program:
  - [utils]: the naming utilities imported by [merger.py];
  - [pandas]: the fragment of the tabular-data library the merger calls
    (frames with row labels and typed columns, column selection, column
    assignment with alignment on the row labels);
  - [py]: a small state-and-exception monad over a world made of the live
    frame objects, the file system and the trace of observable effects;
  - [CSVMerger]: the methods of the class, one definition per method;
  - the properties, grouped by method. *)

From Stdlib Require Import Ascii String DecimalString.
From Stdlib Require DecimalNat DecimalN DecimalFacts.
From stdpp Require Import gmap strings list fin_maps sorting.

Open Scope string_scope.
Open Scope list_scope.
Open Scope nat_scope.
Open Scope stdpp_scope.

(** ** Text helpers (Python [str] operations used by the program) *)

Definition is_digit (c : ascii) : bool :=
let n := nat_of_ascii c in ((48 <=? n) && (n <=? 57))%nat.

Definition lower_ascii (c : ascii) : ascii :=
let n := nat_of_ascii c in
if ((65 <=? n) && (n <=? 90))%nat then ascii_of_nat (n + 32) else c.

(** [s.lower()] *)
Fixpoint lower (s : string) : string :=
match s with
| EmptyString => EmptyString
| String c r => String (lower_ascii c) (lower r)
end.

(** [kw in s] *)
Fixpoint contains (kw s : string) : bool :=
String.prefix kw s ||
match s with
| EmptyString => false
| String _ r => contains kw r
end.

(** [s.endswith(suf)] *)
Definition ends_with (suf s : string) : bool :=
String.eqb (String.substring (String.length s - String.length suf)
                             (String.length suf) s) suf
&& (String.length suf <=? String.length s)%nat.

(** [str(n)] for a non-negative integer *)
Definition str_N (n : N) : string := NilZero.string_of_uint (N.to_uint n).
Definition str_nat (n : nat) : string := NilZero.string_of_uint (Nat.to_uint n).

(** [c * n], a string repeated *)
Fixpoint str_repeat (c : string) (n : nat) : string :=
match n with
| O => ""
| S k => c +:+ str_repeat c k
end.

(** Paths are sequences of components; [p / name] appends one. *)
Definition path := list string.
Definition path_join (p : path) (name : string) : path := p ++ [name].
Definition path_name (p : path) : string := List.last p "".
Definition path_parent (p : path) : path := removelast p.

(** ** The naming utilities *)

Module utils.

Definition digit_value (c : ascii) : N := N.of_nat (nat_of_ascii c - 48).

(** the leading run of decimal digits of [s], read as a number, with the
    number of digits consumed and the remaining text *)
Fixpoint leading_int (s : string) (acc : N) (seen : nat) : N * nat * string :=
  match s with
  | String c r =>
      if is_digit c then leading_int r (acc * 10 + digit_value c)%N (S seen)
      else (acc, seen, s)
  | EmptyString => (acc, seen, s)
  end.

(** Modelled from the spec: [extract_ex_number] of [utils.py], which is not
    part of the sources at hand. It scans the file name for the marker
    "Ex" (in any letter case) directly followed by digits and returns that
    integer; the absent value when no such token occurs. *)
Fixpoint extract_ex_number (filename : string) : option N :=
  match filename with
  | EmptyString => None
  | String c r =>
      match r with
      | String c' r' =>
          if Ascii.eqb (lower_ascii c) "e" && Ascii.eqb (lower_ascii c') "x"
          then match leading_int r' 0%N 0 with
               | (_, O, _) => extract_ex_number r
               | (n, S _, _) => Some n
               end
          else extract_ex_number r
      | EmptyString => None
      end
  end.

(** Modelled from the spec: [find_matching_column] of [utils.py], which is
    not part of the sources at hand. It returns the first column name, in
    the table's column order, whose lowercase form contains the role
    keyword as a substring, or the absent value. *)
Definition find_matching_column (keyword : string) (columns : list string)
  : option string :=
  List.find (fun col => contains keyword (lower col)) columns.

(** Keys of the natural order: text and number chunks alternate. *)
Inductive chunk := Txt (s : string) | Num (n : N).

Fixpoint natural_key_aux (fuel : nat) (s : string) (txt : string) : list chunk :=
  match fuel with
  | O => [Txt txt]
  | S fuel' =>
      match s with
      | EmptyString => [Txt txt]
      | String c r =>
          if is_digit c then
            match leading_int s 0%N 0 with
            | (n, _, rest) => Txt txt :: Num n :: natural_key_aux fuel' rest ""
            end
          else natural_key_aux fuel' r (txt +:+ String c "")
      end
  end.

Definition natural_key (name : string) : list chunk :=
  natural_key_aux (S (String.length name)) name "".

Definition chunk_compare (a b : chunk) : comparison :=
  match a, b with
  | Txt s, Txt t => String.compare s t
  | Num m, Num n => N.compare m n
  | Txt _, Num _ => Lt
  | Num _, Txt _ => Gt
  end.

Fixpoint key_compare (k1 k2 : list chunk) : comparison :=
  match k1, k2 with
  | [], [] => Eq
  | [], _ :: _ => Lt
  | _ :: _, [] => Gt
  | a :: k1', b :: k2' =>
      match chunk_compare a b with
      | Eq => key_compare k1' k2'
      | c => c
      end
  end.

Definition natural_le (f g : path) : bool :=
  match key_compare (natural_key (path_name f)) (natural_key (path_name g)) with
  | Gt => false
  | _ => true
  end.

Fixpoint natural_insert (f : path) (sorted : list path) : list path :=
  match sorted with
  | [] => [f]
  | g :: rest => if natural_le f g then f :: sorted else g :: natural_insert f rest
  end.

(** Modelled from the spec: [natural_sort_files] of [utils.py], which is
    not part of the sources at hand. Files are ordered by name with digit
    runs compared as integers; files with identical keys keep their
    relative order. *)
Definition natural_sort_files (files : list path) : list path :=
  foldr natural_insert [] files.

End utils.

(** ** The tabular-data library *)

Module pandas.

(** Row labels. A frame read from a file numbers its rows 0, 1, 2, ...
    unless the rows carry one field more than the header: then the leading
    field of each row is its label. A label is identified by its value: a
    natural number, or any other value under its text. *)
Inductive label := Row (i : nat) | Key (k : string).

#[global] Instance label_eq_dec : EqDecision label.
Proof. solve_decision. Defined.

(** The types the reader gives to a column. *)
Inductive dtype := int64 | uint64 | float64 | bool_ | object_.

(** A cell is a parsed field, kept as its text since the merger never
    inspects a value; the missing-value marker; or the floating-point value
    an integer field was converted to when its column had to hold the
    missing marker. *)
Inductive cell := NaN | Val (raw : string) | Upcast (raw : string).

(** The values of a column with their type. *)
Abbreviation column := (dtype * list cell)%type.

(** A [Series]: values under row labels. *)
Record Series := mkSeries {
  s_index : list label;
  s_dtype : dtype;
  s_values : list cell
}.

(** A [DataFrame]: the row labels and the columns in order. *)
Record DataFrame := mkDF {
  index : list label;
  cols : list (string * column)
}.

(** [RangeIndex(n)], the labels of a frame whose file has no label field *)
Definition default_index (n : nat) : list label := Row <$> seq 0 n.

(** [pd.DataFrame()] *)
Definition empty_frame : DataFrame := mkDF [] [].

(** [len(df)], [df.columns], [len(df.columns)], [df.empty] *)
Definition len (df : DataFrame) : nat := length (index df).
Definition columns (df : DataFrame) : list string := (cols df).*1.
Definition width (df : DataFrame) : nat := length (cols df).
Definition empty (df : DataFrame) : bool :=
  ((len df =? 0) || (width df =? 0))%nat.

(** Frames as the reader produces them: every column spans the index and
    column names are distinct (the reader renames duplicates). *)
Definition well_formed (df : DataFrame) : Prop :=
  Forall (fun c => length c.2.2 = len df) (cols df) ∧ NoDup (columns df).

(** the rows are numbered 0, 1, 2, ... *)
Definition has_default_index (df : DataFrame) : Prop :=
  index df = default_index (len df).

(** [df[name]]: the column under that name with the frame's labels, [None]
    standing for [KeyError]. *)
Fixpoint getitem_cols (cs : list (string * column)) (name : string) : option column :=
  match cs with
  | [] => None
  | (k, v) :: rest => if String.eqb k name then Some v else getitem_cols rest name
  end.
Definition getitem (df : DataFrame) (name : string) : option Series :=
  (fun c : column => mkSeries (index df) c.1 c.2) <$> getitem_cols (cols df) name.

(** the first position of a label in an index *)
Fixpoint position (l : label) (idx : list label) : option nat :=
  match idx with
  | [] => None
  | k :: rest => if decide (k = l) then Some 0 else S <$> position l rest
  end.

(** the value a series holds under a label *)
Definition at_label (s : Series) (l : label) : option cell :=
  i ← position l (s_index s); s_values s !! i.

(** The type a column takes when it has to hold the missing marker, and
    what becomes of its values: integers become floating-point numbers. *)
Definition promote (d : dtype) : dtype :=
  match d with
  | int64 | uint64 => float64
  | bool_ => object_
  | _ => d
  end.
Definition promote_cell (d : dtype) (c : cell) : cell :=
  match d, c with
  | int64, Val raw | uint64, Val raw => Upcast raw
  | _, _ => c
  end.

(** [s.reindex(target)]: the values of [s] under the labels of [target].
    Equal indexes leave the values as they are. Otherwise the labels of [s]
    must be unique ([None] stands for the [ValueError] "cannot reindex on
    an axis with duplicate labels"); a label [s] does not have gives the
    missing marker, and the column is promoted when there is one. *)
Definition reindex (s : Series) (target : list label) : option column :=
  if decide (s_index s = target) then Some (s_dtype s, s_values s)
  else if decide (NoDup (s_index s)) then
    let found := at_label s <$> target in
    if bool_decide (Forall is_Some found)
    then Some (s_dtype s, default NaN <$> found)
    else Some (promote (s_dtype s),
               (fun o => from_option (promote_cell (s_dtype s)) NaN o) <$> found)
  else None.

(** A frame whose index is empty adopts the index of the first non-empty
    value assigned to it; the columns it already has are filled with the
    missing marker. *)
Definition ensure_valid_index (df : DataFrame) (value : Series) : DataFrame :=
  if ((len df =? 0) && (0 <? length (s_index value)))%nat
  then mkDF (s_index value)
            ((fun c : string * column =>
                (c.1, (promote c.2.1, replicate (length (s_index value)) NaN)))
               <$> cols df)
  else df.

(** The column list after assigning under [name]: an existing column of
    that name is replaced where it stands, a new name is appended. *)
Fixpoint put_column (name : string) (v : column) (cs : list (string * column))
  : list (string * column) :=
  match cs with
  | [] => [(name, v)]
  | (k, old) :: rest =>
      if String.eqb k name then (k, v) :: rest
      else (k, old) :: put_column name v rest
  end.

(** [df[name] = value] for a series [value], as the new frame contents:
    the value is aligned on the frame's row labels; [None] stands for the
    [ValueError] of the alignment. *)
Definition setitem (df : DataFrame) (name : string) (value : Series)
  : option DataFrame :=
  let df' := ensure_valid_index df value in
  col ← reindex value (index df');
  Some (mkDF (index df') (put_column name col (cols df'))).

(** what [to_csv(index=False)] keeps of a frame, as the reader gives it
    back: the columns, the rows numbered afresh *)
Definition written (df : DataFrame) : DataFrame :=
  mkDF (default_index (len df)) (cols df).

End pandas.
Export pandas.

(** ** Python objects, exceptions and effects *)

Module py.

(** References to frame objects. *)
Definition loc := positive.

Inductive exn :=
| FileNotFoundError (msg : string)
| NotADirectoryError (msg : string)
| FileExistsError (msg : string)
| IsADirectoryError (msg : string)
| KeyError (key : string)
| TypeError (msg : string)
| ValueError (msg : string)
| AttributeError (msg : string)
| ParserError (msg : string)
(** a reference that names no object; Python never produces one, it only
    marks ill-formed initial worlds of the model *)
| DanglingReference.

(** What the reader makes of a regular file: a table, or a failure. *)
Inductive content := Table (df : DataFrame) | Corrupt (why : string).

Inductive node := Dir | File (c : content).

(** Observable effects, in the order they happen. *)
Inductive event :=
| Print (line : string)
| Mkdir (p : path)
| Saved (p : path) (df : DataFrame).

Record world := World {
  frames : gmap loc DataFrame;
  fs : gmap path node;
  trace : list event
}.

Inductive outcome (A : Type) :=
| Ret (a : A)
| Raise (e : exn).
Arguments Ret {A} a.
Arguments Raise {A} e.

(** A computation runs in a world and leaves a world, also when it raises. *)
Definition M (A : Type) : Type := world -> outcome A * world.

Definition ret {A} (a : A) : M A := fun w => (Ret a, w).
Definition raise {A} (e : exn) : M A := fun w => (Raise e, w).
Definition bind {A B} (m : M A) (k : A -> M B) : M B :=
  fun w => match m w with
           | (Ret a, w') => k a w'
           | (Raise e, w') => (Raise e, w')
           end.

(** [try: body except Exception as e: handler(e)] *)
Definition try_except {A} (body : M A) (handler : exn -> M A) : M A :=
  fun w => match body w with
           | (Ret a, w') => (Ret a, w')
           | (Raise e, w') => handler e w'
           end.

Definition print (line : string) : M unit :=
  fun w => (Ret tt, World (frames w) (fs w) (trace w ++ [Print line])).

End py.
Export py.

Notation "x <- m ;; k" := (bind m (fun x => k))
(at level 20, m at level 99, k at level 200, only parsing).
Notation "m ;; k" := (bind m (fun _ => k))
(at level 100, k at level 200, right associativity, only parsing).

(** ** Frame objects in the heap *)

Module frame.

(** a new frame object *)
Definition new (df : DataFrame) : M loc :=
  fun w => let l := fresh (dom (frames w)) in
           (Ret l, World (<[l := df]> (frames w)) (fs w) (trace w)).

(** the contents of the object behind a reference *)
Definition get (l : loc) : M DataFrame :=
  fun w => match frames w !! l with
           | Some df => (Ret df, w)
           | None => (Raise DanglingReference, w)
           end.

(** in-place update of the object behind a reference *)
Definition put (l : loc) (df : DataFrame) : M unit :=
  fun w => (Ret tt, World (<[l := df]> (frames w)) (fs w) (trace w)).

(** [df.copy()] *)
Definition copy (l : loc) : M loc := df <- get l ;; new df.

(** [df[name]], a [KeyError] when there is no such column *)
Definition getitem (l : loc) (name : string) : M Series :=
  df <- get l ;;
  match pandas.getitem df name with
  | Some s => ret s
  | None => raise (KeyError name)
  end.

(** the error of an assignment whose value cannot be aligned on the
    frame's row labels *)
Definition alignment_error : exn :=
  ValueError "cannot reindex on an axis with duplicate labels".

(** [df[name] = value], mutating the frame *)
Definition setitem (l : loc) (name : string) (value : Series) : M unit :=
  df <- get l ;;
  match pandas.setitem df name value with
  | Some df' => put l df'
  | None => raise alignment_error
  end.

End frame.

(** ** The file system, as [pathlib] and the CSV reader and writer see it *)

Module os.

Definition path_str (p : path) : string := String.concat "/" p.

Definition is_child (p q : path) : bool :=
  bool_decide (q ≠ [] ∧ path_parent q = p).

Definition children (tree : gmap path node) (p : path) : list path :=
  List.filter (is_child p) (map_to_list tree).*1.

(** [p.exists()], [p.is_dir()] *)
Definition path_exists (p : path) : M bool :=
  fun w => (Ret (bool_decide (is_Some (fs w !! p))), w).
Definition is_dir (p : path) : M bool :=
  fun w => (Ret (match fs w !! p with Some Dir => true | _ => false end), w).

(** [p.iterdir()] *)
Definition iterdir (p : path) : M (list path) :=
  fun w => match fs w !! p with
           | Some Dir => (Ret (children (fs w) p), w)
           | Some (File _) => (Raise (NotADirectoryError (path_str p)), w)
           | None => (Raise (FileNotFoundError (path_str p)), w)
           end.

(** [p.glob('*.csv')]: the entries of [p] whose name ends in ".csv";
    nothing when [p] is not a directory *)
Definition glob_csv (p : path) : M (list path) :=
  fun w => match fs w !! p with
           | Some Dir =>
               (Ret (List.filter (fun q => ends_with ".csv" (path_name q))
                                 (children (fs w) p)), w)
           | _ => (Ret [], w)
           end.

(** [p.mkdir(exist_ok=True)]: an existing directory is left alone, an
    existing file or a missing parent is an error *)
Definition mkdir_exist_ok (p : path) : M unit :=
  fun w => match fs w !! p with
           | Some Dir => (Ret tt, w)
           | Some (File _) => (Raise (FileExistsError (path_str p)), w)
           | None =>
               match p, fs w !! path_parent p with
               | _ :: _, Some Dir =>
                   (Ret tt, World (frames w) (<[p := Dir]> (fs w))
                                  (trace w ++ [Mkdir p]))
               | _, _ => (Raise (FileNotFoundError (path_str p)), w)
               end
           end.

(** [pd.read_csv(p, float_precision='high')] *)
Definition read_csv (p : path) : M loc :=
  fun w => match fs w !! p with
           | Some (File (Table df)) => frame.new df w
           | Some (File (Corrupt why)) => (Raise (ParserError why), w)
           | Some Dir => (Raise (IsADirectoryError (path_str p)), w)
           | None => (Raise (FileNotFoundError (path_str p)), w)
           end.

(** [df.to_csv(p, index=False)]; reading the file back gives the columns
    of the table under the default index *)
Definition to_csv (l : loc) (p : path) : M unit :=
  df <- frame.get l ;;
  fun w => match fs w !! p, fs w !! path_parent p with
           | Some Dir, _ => (Raise (IsADirectoryError (path_str p)), w)
           | _, Some Dir =>
               (Ret tt, World (frames w) (<[p := File (Table (written df))]> (fs w))
                              (trace w ++ [Saved p df]))
           | _, _ => (Raise (FileNotFoundError (path_str p)), w)
           end.

(** lexicographic order on components, the order of [Path] objects *)
Fixpoint path_compare (p q : path) : comparison :=
  match p, q with
  | [], [] => Eq
  | [], _ :: _ => Lt
  | _ :: _, [] => Gt
  | a :: p', b :: q' =>
      match String.compare a b with
      | Eq => path_compare p' q'
      | c => c
      end
  end.

Definition path_le (p q : path) : bool :=
  match path_compare p q with Gt => false | _ => true end.

Fixpoint sorted_insert (p : path) (acc : list path) : list path :=
  match acc with
  | [] => [p]
  | q :: rest => if path_le p q then p :: acc else q :: sorted_insert p rest
  end.

(** [sorted(paths)], a stable sort *)
Definition sorted (paths : list path) : list path := foldr sorted_insert [] paths.

End os.

(** ** The merger *)

Module CSVMerger.
Import utils os.

(** The attributes set by the constructor. *)
Record merger := Merger {
  root_path : path;
  project_dir : path
}.

(** Per-file descriptor stored under ['files']. *)
Record file_info := FileInfo {
  fi_name : string;
  fi_ex_number : option N;
  fi_rows : nat;
  fi_columns : nat
}.

(** Values held by the metadata dictionaries. *)
Inductive pyval :=
| PStr (s : string)
| PInt (n : nat)
| PFiles (l : list file_info)
| PFrame (l : loc).

(** Truth value of an optional integer and of an optional string, as an
    [if] tests them: absent, zero and the empty string are false. *)
Definition truthy_int (o : option N) : bool :=
  match o with Some n => negb (n =? 0)%N | None => false end.
Definition truthy_str (o : option string) : bool :=
  match o with Some s => negb (String.eqb s "") | None => false end.

(** an optional integer inside an f-string *)
Definition fmt_int (o : option N) : string :=
  match o with Some n => str_N n | None => "None" end.

Definition fmt_val (v : pyval) : string :=
  match v with
  | PStr s => s
  | PInt n => str_nat n
  | PFiles l => "[" +:+ String.concat ", " (fi_name <$> l) +:+ "]"
  | PFrame _ => "DataFrame"
  end.

(** [d[k]] on a metadata dictionary *)
Definition getkey (d : gmap string pyval) (k : string) : M pyval :=
  match d !! k with
  | Some v => ret v
  | None => raise (KeyError k)
  end.

(** the list behind [v.append(...)]; the other values have no such method *)
Definition as_files (v : pyval) : M (list file_info) :=
  match v with
  | PFiles l => ret l
  | _ => raise (AttributeError "append")
  end.

(** the frame behind [v.empty]; the other values have no such attribute *)
Definition as_frame (v : pyval) : M loc :=
  match v with
  | PFrame l => ret l
  | _ => raise (AttributeError "empty")
  end.

(** [len(v)] *)
Definition py_len (v : pyval) : M nat :=
  match v with
  | PFiles l => ret (length l)
  | PStr s => ret (String.length s)
  | PInt _ => raise (TypeError "object of type 'int' has no len()")
  | PFrame l => df <- frame.get l ;; ret (len df)
  end.

(** the truth value of [v], as an [if] tests it *)
Definition py_bool (v : pyval) : M bool :=
  match v with
  | PFiles l => ret (negb (bool_decide (l = [])))
  | PStr s => ret (negb (String.eqb s ""))
  | PInt n => ret (negb (n =? 0)%nat)
  | PFrame _ => raise (ValueError "The truth value of a DataFrame is ambiguous")
  end.

(** A dictionary from source column to new name, in insertion order:
    assigning to a key that is present replaces its value in place. *)
Definition dict := list (string * string).

Fixpoint dict_set (d : dict) (k v : string) : dict :=
  match d with
  | [] => [(k, v)]
  | (k', v') :: rest =>
      if String.eqb k' k then (k', v) :: rest else (k', v') :: dict_set rest k v
  end.

(** [if col: columns_to_add[col] = new] *)
Definition add_role (d : dict) (col : option string) (new : string) : dict :=
  match col with
  | Some c => if truthy_str col then dict_set d c new else d
  | None => d
  end.

Definition __init__ (module_file : path) (root : path) : M merger :=
  present <- path_exists root ;;
  if negb present
  then raise (FileNotFoundError ("Root path does not exist: " +:+ path_str root))
  else
    directory <- is_dir root ;;
    if negb directory
    then raise (NotADirectoryError
                  ("Root path is not a directory: " +:+ path_str root))
    else ret (Merger root (path_parent module_file)).

Fixpoint keep_dirs (items : list path) : M (list path) :=
  match items with
  | [] => ret []
  | item :: rest =>
      d <- is_dir item ;;
      kept <- keep_dirs rest ;;
      ret (if d then item :: kept else kept)
  end.

Definition get_class_folders (self : merger) : M (list path) :=
  items <- iterdir (root_path self) ;;
  keep_dirs items.

Definition get_csv_files (self : merger) (class_folder : path) : M (list path) :=
  csv_files <- glob_csv class_folder ;;
  ret (natural_sort_files csv_files).

Definition read_csv_safely (self : merger) (file_path : path) : M (loc * bool) :=
  try_except
    (df <- read_csv file_path ;; ret (df, true))
    (fun e =>
       print ("  Error reading " +:+ path_name file_path) ;;
       df <- frame.new empty_frame ;;
       ret (df, false)).

(** the suffix of the columns contributed by the table at position [idx] *)
Definition suffix_for (idx : nat) (file_name : string) : string :=
  let ex_num := extract_ex_number file_name in
  if truthy_int ex_num then "_Ex" +:+ fmt_int ex_num else "_" +:+ str_nat idx.

(** the dictionary [columns_to_add] built for one table *)
Definition columns_to_add (suffix : string) (columns : list string) : dict :=
  let x_col := find_matching_column "x" columns in
  let y_col := find_matching_column "y" columns in
  let z_col := find_matching_column "z" columns in
  let d := [] in
  let d := add_role d x_col ("X" +:+ suffix) in
  let d := add_role d y_col ("Y" +:+ suffix) in
  let d := add_role d z_col ("Z" +:+ suffix) in
  d.

(** [for orig_col, new_col in columns_to_add.items(): result[new_col] = df[orig_col]] *)
Fixpoint add_columns (result df : loc) (items : dict) : M unit :=
  match items with
  | [] => ret tt
  | (orig_col, new_col) :: rest =>
      s <- frame.getitem df orig_col ;;
      frame.setitem result new_col s ;;
      add_columns result df rest
  end.

(** the body of the merge loop for one subsequent table *)
Definition merge_one (result : loc) (idx : nat) (df : loc) (file_name : string)
  : M unit :=
  let suffix := suffix_for idx file_name in
  d <- frame.get df ;;
  add_columns result df (columns_to_add suffix (columns d)).

(** [for idx, (df, file_name) in enumerate(zip(...), start=idx)] *)
Fixpoint merge_loop (result : loc) (idx : nat) (items : list (loc * string))
  : M unit :=
  match items with
  | [] => ret tt
  | (df, file_name) :: rest =>
      merge_one result idx df file_name ;;
      merge_loop result (S idx) rest
  end.

Definition merge_dataframes (self : merger) (dfs : list loc)
           (file_names : list string) : M loc :=
  match dfs with
  | [] => frame.new empty_frame
  | first_df :: _ =>
      result <- frame.copy first_df ;;
      first <- frame.get first_df ;;
      match find_matching_column "channel" (columns first) with
      | None =>
          print "  Warning: No time/channel column found" ;;
          frame.new empty_frame
      | Some time_col =>
          merge_loop result 2 (zip (tail dfs) (tail file_names)) ;;
          ret result
      end
  end.

(** the reading loop of [process_class], with its three accumulators *)
Fixpoint read_files (self : merger) (csv_files : list path)
         (dataframes : list loc) (file_names : list string)
         (metadata : gmap string pyval)
  : M (list loc * list string * gmap string pyval) :=
  match csv_files with
  | [] => ret (dataframes, file_names, metadata)
  | csv_file :: rest =>
      let ex_num := extract_ex_number (path_name csv_file) in
      let ex_label :=
        if truthy_int ex_num then "Ex" +:+ fmt_int ex_num else "Unknown" in
      print ("  " +:+ ex_label +:+ ": " +:+ path_name csv_file) ;;
      r <- read_csv_safely self csv_file ;;
      let '(df, success) := r in
      if success : bool then
        d <- frame.get df ;;
        v <- getkey metadata "files" ;;
        files <- as_files v ;;
        let info := FileInfo (path_name csv_file) ex_num (len d) (width d) in
        read_files self rest (dataframes ++ [df])
                   (file_names ++ [path_name csv_file])
                   (<["files" := PFiles (files ++ [info])]> metadata)
      else read_files self rest dataframes file_names metadata
  end.

Definition banner : string := str_repeat "=" 60.

Definition process_class (self : merger) (class_folder : path)
  : M (gmap string pyval) :=
  let class_name := path_name class_folder in
  print "" ;; print banner ;;
  print ("Processing Class: " +:+ class_name) ;;
  print banner ;;
  csv_files <- get_csv_files self class_folder ;;
  match csv_files with
  | [] =>
      print ("  No CSV files found in " +:+ class_name) ;;
      e <- frame.new empty_frame ;;
      ret (<["merged_df" := PFrame e]>
             (<["files" := PFiles []]> {["class" := PStr class_name]}))
  | _ :: _ =>
      print ("Found " +:+ str_nat (length csv_files) +:+ " CSV file(s):") ;;
      let metadata : gmap string pyval :=
        <["total_columns" := PInt 0]>
          (<["total_rows" := PInt 0]>
             (<["files" := PFiles []]> {["class" := PStr class_name]})) in
      r <- read_files self csv_files [] [] metadata ;;
      let '(dataframes, file_names, metadata) := r in
      match dataframes with
      | _ :: _ =>
          print ("  Merging " +:+ str_nat (length dataframes) +:+ " file(s)...") ;;
          merged_df <- merge_dataframes self dataframes file_names ;;
          m <- frame.get merged_df ;;
          let metadata := <["total_rows" := PInt (len m)]> metadata in
          let metadata := <["total_columns" := PInt (width m)]> metadata in
          let metadata := <["merged_df" := PFrame merged_df]> metadata in
          print ("  Merged DataFrame: " +:+ str_nat (len m) +:+ " rows x "
                 +:+ str_nat (width m) +:+ " columns") ;;
          ret metadata
      | [] =>
          print "  No valid DataFrames to merge" ;;
          e <- frame.new empty_frame ;;
          ret (<["merged_df" := PFrame e]> metadata)
      end
  end.

Fixpoint print_files (files : list file_info) : M unit :=
  match files with
  | [] => ret tt
  | file_info :: rest =>
      let ex_label :=
        if truthy_int (fi_ex_number file_info)
        then "Ex" +:+ fmt_int (fi_ex_number file_info) else "Unknown" in
      print ("     " +:+ ex_label +:+ ": " +:+ fi_name file_info +:+ " ("
             +:+ str_nat (fi_rows file_info) +:+ " rows, "
             +:+ str_nat (fi_columns file_info) +:+ " cols)") ;;
      print_files rest
  end.

(** [for file_info in v: print(... file_info['ex_number'] ...)]: the
    elements of a string or the column names of a frame are strings, which
    cannot be indexed by a key *)
Definition print_details (v : pyval) : M unit :=
  match v with
  | PFiles l => print_files l
  | PStr s =>
      if String.eqb s "" then ret tt
      else raise (TypeError "string indices must be integers")
  | PInt _ => raise (TypeError "'int' object is not iterable")
  | PFrame l =>
      df <- frame.get l ;;
      match columns df with
      | [] => ret tt
      | _ :: _ => raise (TypeError "string indices must be integers")
      end
  end.

(** the body of the summary loop for one metadata dictionary *)
Definition print_meta (meta : gmap string pyval) : M unit :=
  c <- getkey meta "class" ;;
  print "" ;; print ("Class: " +:+ fmt_val c) ;;
  f <- getkey meta "files" ;;
  n <- py_len f ;;
  print ("   Files processed: " +:+ str_nat n) ;;
  rows <- getkey meta "total_rows" ;;
  print ("   Total rows: " +:+ fmt_val rows) ;;
  columns <- getkey meta "total_columns" ;;
  print ("   Total columns: " +:+ fmt_val columns) ;;
  f <- getkey meta "files" ;;
  some <- py_bool f ;;
  if some : bool then print "   File details:" ;; print_details f
  else ret tt.

Fixpoint print_metas (all_metadata : list (gmap string pyval)) : M unit :=
  match all_metadata with
  | [] => ret tt
  | meta :: rest => print_meta meta ;; print_metas rest
  end.

Definition print_summary (self : merger)
           (all_metadata : list (gmap string pyval)) : M unit :=
  print "" ;; print banner ;; print "SUMMARY" ;; print banner ;;
  print_metas all_metadata.

(** the class loop of [run], accumulating [all_metadata] *)
Fixpoint process_all (self : merger) (output_dir : path)
         (class_folders : list path) (all_metadata : list (gmap string pyval))
  : M (list (gmap string pyval)) :=
  match class_folders with
  | [] => ret all_metadata
  | class_folder :: rest =>
      metadata <- process_class self class_folder ;;
      let all_metadata := all_metadata ++ [metadata] in
      v <- getkey metadata "merged_df" ;;
      merged_df <- as_frame v ;;
      m <- frame.get merged_df ;;
      (if negb (empty m) then
         c <- getkey metadata "class" ;;
         let output_file := path_join output_dir (fmt_val c +:+ "_merged.csv") in
         to_csv merged_df output_file ;;
         print ("  Saved: " +:+ path_str output_file)
       else ret tt) ;;
      process_all self output_dir rest all_metadata
  end.

Definition run (self : merger) (output_dir : option path) : M unit :=
  let output_dir :=
    match output_dir with
    | None => path_join (project_dir self) "outputs"
    | Some d => d
    end in
  mkdir_exist_ok output_dir ;;
  print "" ;; print "Starting CSV Merger" ;;
  print ("Root Directory: " +:+ path_str (root_path self)) ;;
  print ("Output Directory: " +:+ path_str output_dir) ;;
  class_folders <- get_class_folders self ;;
  match class_folders with
  | [] => print "" ;; print "No class folders found!"
  | _ :: _ =>
      print ("Found " +:+ str_nat (length class_folders) +:+ " class(es): ["
             +:+ String.concat ", " (path_name <$> class_folders) +:+ "]") ;;
      all_metadata <- process_all self output_dir (sorted class_folders) [] ;;
      print_summary self all_metadata
  end.

End CSVMerger.
Export CSVMerger.

(** ** Value-level readings used to state the properties *)

Section readings.
Import utils.

(** the column names after an assignment under [name] *)
Definition assign_name (names : list string) (name : string) : list string :=
  if bool_decide (name ∈ names) then names else names ++ [name].

(** the assignments of one table's dictionary, on the result's contents;
    [None] when an assignment raises *)
Fixpoint assign_all (d : DataFrame) (r : DataFrame) (items : dict) : option DataFrame :=
  match items with
  | [] => Some r
  | (orig_col, new_col) :: rest =>
      s ← pandas.getitem d orig_col;
      r' ← pandas.setitem r new_col s;
      assign_all d r' rest
  end.

(** the result after the loop body has run for table [d] at position [idx] *)
Definition merged_one (idx : nat) (r d : DataFrame) (file_name : string)
  : option DataFrame :=
  assign_all d r (columns_to_add (suffix_for idx file_name) (columns d)).

(** the result after the loop has run over [items] *)
Fixpoint merged_all (idx : nat) (r : DataFrame) (items : list (DataFrame * string))
  : option DataFrame :=
  match items with
  | [] => Some r
  | (d, file_name) :: rest =>
      r' ← merged_one idx r d file_name; merged_all (S idx) r' rest
  end.

(** a column copied by row position onto [n] rows: cut to [n] values, or
    padded with the missing marker, the column then being promoted *)
Definition positional (n : nat) (c : column) : column :=
  if (n <=? length c.2)%nat then (c.1, take n c.2)
  else (promote c.1, (promote_cell c.1 <$> c.2) ++ replicate (n - length c.2) NaN).

(** The outcome [res] in [w] of a step that works on the frame behind
    [result] alone: it returns having given the frame the contents [o], or,
    when there are none, raises the alignment error having changed at most
    that frame. *)
Definition updates (result : loc) (o : option DataFrame) (w : world)
           (res : outcome unit * world) : Prop :=
  match o with
  | Some r' =>
      res = (Ret tt, World (<[result := r']> (frames w)) (fs w) (trace w))
  | None =>
      ∃ r', res = (Raise frame.alignment_error,
                   World (<[result := r']> (frames w)) (fs w) (trace w))
  end.

(** the tables behind the references the loop iterates over *)
Definition deref_items (h : gmap loc DataFrame) (items : list (loc * string))
  : list (DataFrame * string) :=
  (fun it => (default empty_frame (h !! it.1), it.2)) <$> items.




(** the tables saved by a run, in order *)
Definition saved_files (t : list event) : list (path * DataFrame) :=
  omap (fun e => match e with Saved p df => Some (p, df) | _ => None end) t.

(** what the reader makes of a path: the table of a readable file *)
Definition loads (tree : gmap path node) (p : path) : option DataFrame :=
  match tree !! p with
  | Some (File (Table df)) => Some df
  | _ => None
  end.

(** the descriptor recorded for a readable file *)
Definition info_of (tree : gmap path node) (p : path) : option file_info :=
  match loads tree p with
  | Some df =>
      Some (FileInfo (path_name p) (extract_ex_number (path_name p)) (len df) (width df))
  | None => None
  end.

(** the files of a list that the reader can load *)
Definition readable (tree : gmap path node) (files : list path) : list path :=
  List.filter (fun p => bool_decide (is_Some (loads tree p))) files.

(** the naturally sorted CSV files of a class folder *)
Definition csv_files_of (tree : gmap path node) (class_folder : path) : list path :=
  natural_sort_files
    match tree !! class_folder with
    | Some Dir =>
        List.filter (fun q => ends_with ".csv" (path_name q))
                    (os.children tree class_folder)
    | _ => []
    end.

(** [m] returns in [w], and its result and final world satisfy [Q] *)
Definition returns {A} (m : M A) (w : world) (Q : A → world → Prop) : Prop :=
  ∃ a w', m w = (Ret a, w') ∧ Q a w'.

(** [w'] comes after [w] by steps that write no file: the file system and
    the saved tables are the same, and every live frame keeps its contents *)
Definition grows (w w' : world) : Prop :=
  fs w' = fs w ∧
  saved_files (trace w') = saved_files (trace w) ∧
  ∀ l x, frames w !! l = Some x → frames w' !! l = Some x.

(** the class folders found under the root *)
Definition class_folders_of (tree : gmap path node) (root : path) : list path :=
  List.filter (fun item => match tree !! item with Some Dir => true | _ => false end)
              (os.children tree root).

(** the directory the run writes to *)
Definition output_location (self : merger) (output_dir : option path) : path :=
  match output_dir with
  | None => path_join (project_dir self) "outputs"
  | Some d => d
  end.

(** the file system once the output directory has been made *)
Definition after_mkdir (tree : gmap path node) (out : path) : gmap path node :=
  match tree !! out with
  | Some _ => tree
  | None => <[out := Dir]> tree
  end.

(** the output location can be used: the directory exists, or it is absent
    and its parent directory exists; and no directory stands where an output
    file would be written *)
Definition usable_output (tree : gmap path node) (out : path) : Prop :=
  (tree !! out = Some Dir ∨
   (tree !! out = None ∧ out ≠ [] ∧ tree !! path_parent out = Some Dir)) ∧
  ∀ c, tree !! path_join out (c +:+ "_merged.csv") ≠ Some Dir.

(** The merge, read on table values: the empty table for no table or for
    a first table without a channel column, else the first table with the
    assignments of the later ones; [None] when an assignment raises. *)
Definition merged_table (tables : list DataFrame) (file_names : list string)
  : option DataFrame :=
  match tables with
  | [] => Some empty_frame
  | first :: rest =>
      match find_matching_column "channel" (columns first) with
      | None => Some empty_frame
      | Some _ => merged_all 2 first (zip rest (tail file_names))
      end
  end.

(** The merged table of a class folder, read off the file system: the
    merge of the tables of its readable CSV files, in natural order and
    under their file names. *)
Definition class_merge (tree : gmap path node) (class_folder : path)
  : option DataFrame :=
  let files := csv_files_of tree class_folder in
  merged_table (omap (loads tree) files) (path_name <$> readable tree files).

(** The files a run over [class_folders] is due to write, in order: for
    each class whose merged table is not empty, that table under
    [<class>_merged.csv]; nothing for a class whose merged table is empty.
    A written file is part of the file system the later classes are read
    from; a class whose merge raises ends the run. *)
Fixpoint run_outputs (tree : gmap path node) (out : path) (class_folders : list path)
  : list (path * DataFrame) :=
  match class_folders with
  | [] => []
  | class_folder :: rest =>
      match class_merge tree class_folder with
      | Some m =>
          if empty m then run_outputs tree out rest
          else
            let output_file := path_join out (path_name class_folder +:+ "_merged.csv") in
            (output_file, m)
              :: run_outputs (<[output_file := File (Table (written m))]> tree) out rest
      | None => []
      end
  end.


(** [w'] differs from [w] by printed lines only *)
Definition prints_only (w w' : world) : Prop :=
  frames w' = frames w ∧ fs w' = fs w ∧
  saved_files (trace w') = saved_files (trace w).



(** a metadata dictionary with the four entries the summary reads *)
Definition complete_metadata (metadata : gmap string pyval) : Prop :=
  is_Some (metadata !! "class") ∧
  (∃ files, metadata !! "files" = Some (PFiles files)) ∧
  is_Some (metadata !! "total_rows") ∧
  is_Some (metadata !! "total_columns").

(** a metadata dictionary the summary can print: the four entries it reads
    are there, and the entry for the files is a list of descriptors or, as
    far as [len] and the truth test go, the empty string *)
Definition summarisable (metadata : gmap string pyval) : Prop :=
  is_Some (metadata !! "class") ∧
  ((∃ files, metadata !! "files" = Some (PFiles files))
   ∨ metadata !! "files" = Some (PStr "")) ∧
  is_Some (metadata !! "total_rows") ∧
  is_Some (metadata !! "total_columns").

(** a metadata dictionary that lacks one of the four entries the summary
    reads *)
Definition lacks_entry (metadata : gmap string pyval) : Prop :=
  metadata !! "class" = None ∨ metadata !! "files" = None ∨
  metadata !! "total_rows" = None ∨ metadata !! "total_columns" = None.




End readings.

(** ** Sample data *)

Module sample.

Definition merger_a : merger := Merger ["data"] ["project"].

(** a table under the default index *)
Definition table (n : nat) (cs : list (string * column)) : DataFrame :=
  mkDF (default_index n) cs.

(** a table with a channel column and two rows *)
Definition channel_xyz : DataFrame :=
  table 2 [("Channel", (int64, [Val "1"; Val "2"]));
           ("X", (float64, [Val "0.1"; Val "0.2"]));
           ("Y", (float64, [Val "0.3"; Val "0.4"]));
           ("Z", (float64, [Val "0.5"; Val "0.6"]))].

(** a longer table *)
Definition three_rows : DataFrame :=
  table 3 [("Channel", (int64, [Val "1"; Val "2"; Val "3"]));
           ("X", (int64, [Val "7"; Val "8"; Val "9"]))].

(** a header-only file: columns but no rows *)
Definition header_only : DataFrame :=
  table 0 [("Channel", (object_, [])); ("X", (object_, []))].

(** a table without a channel column *)
Definition no_channel : DataFrame :=
  table 1 [("Time", (int64, [Val "0"])); ("X", (int64, [Val "5"]))].

(** an x column only *)
Definition x_only : DataFrame := table 2 [("X", (int64, [Val "3"; Val "4"]))].

(** a file whose rows have one field more than the header: the leading
    field labels the rows, here twice with the same value *)
Definition repeated_labels : DataFrame :=
  mkDF [Key "a"; Key "a"] [("X", (int64, [Val "3"; Val "4"]))].

(** rows labelled by a leading field, each label once *)
Definition labelled : DataFrame :=
  mkDF [Key "a"; Key "b"] [("X", (int64, [Val "3"; Val "4"]))].

Definition heap (tables : list DataFrame) : gmap loc DataFrame :=
  list_to_map (zip (Pos.of_nat <$> seq 1 (length tables)) tables).

Definition world_of (tables : list DataFrame) : world := World (heap tables) ∅ [].

(** a root with an empty class folder [a] and a class [b] holding two
    readable files and a corrupt one *)
Definition tree_with_empty_class : gmap path node :=
  list_to_map
    [ (["data"], Dir); (["project"], Dir);
      (["data"; "a"], Dir);
      (["data"; "b"], Dir);
      (["data"; "b"; "Ex1.csv"], File (Table channel_xyz));
      (["data"; "b"; "Ex2.csv"], File (Table three_rows));
      (["data"; "b"; "notes.csv"], File (Corrupt "Error tokenizing data")) ].

(** a root whose only class holds nothing but a corrupt file *)
Definition tree_with_corrupt_class : gmap path node :=
  list_to_map
    [ (["data"], Dir); (["project"], Dir);
      (["data"; "a"], Dir);
      (["data"; "a"; "Ex1.csv"], File (Corrupt "Error tokenizing data")) ].

(** a root with one class of two readable files *)
Definition tree_with_one_class : gmap path node :=
  list_to_map
    [ (["data"], Dir); (["project"], Dir);
      (["data"; "b"], Dir);
      (["data"; "b"; "Ex1.csv"], File (Table channel_xyz));
      (["data"; "b"; "Ex2.csv"], File (Table three_rows)) ].

Definition disk (tree : gmap path node) : world := World ∅ tree [].


(** a root whose class holds a file with repeated row labels *)
Definition tree_with_repeated_labels : gmap path node :=
  list_to_map
    [ (["data"], Dir); (["project"], Dir);
      (["data"; "b"], Dir);
      (["data"; "b"; "Ex1.csv"], File (Table channel_xyz));
      (["data"; "b"; "Ex2.csv"], File (Table repeated_labels)) ].

(** a root that holds a file and no folder *)
Definition tree_without_classes : gmap path node :=
  list_to_map
    [ (["data"], Dir); (["project"], Dir);
      (["data"; "readme.csv"], File (Table channel_xyz)) ].

(** a root with a class [b] of two readable files and a class [c] whose
    only file has a header and no rows *)
Definition tree_with_two_classes : gmap path node :=
  list_to_map
    [ (["data"], Dir); (["project"], Dir);
      (["data"; "b"], Dir);
      (["data"; "b"; "Ex1.csv"], File (Table channel_xyz));
      (["data"; "b"; "Ex2.csv"], File (Table three_rows));
      (["data"; "c"], Dir);
      (["data"; "c"; "Ex1.csv"], File (Table header_only)) ].

End sample.

(** * Properties *)

(** ** Column names and the naming utilities *)

Section naming.
Import utils.

Lemma prefix_nonempty_nil (kw : string) : kw ≠ "" → String.prefix kw "" = false.
Proof. by destruct kw. Qed.


(** A column found for a role is one of the given columns and its
    lowercase name contains the keyword. *)
Lemma find_matching_column_Some kw columns c :
  find_matching_column kw columns = Some c →
  c ∈ columns ∧ contains kw (lower c) = true.
Proof.
  unfold find_matching_column. intros H.
  apply List.find_some in H as [Hin Hc]. split; [by apply list_elem_of_In | done].
Qed.

Lemma find_matching_column_None kw columns :
  find_matching_column kw columns = None ↔
  Forall (fun c => contains kw (lower c) = false) columns.
Proof.
  unfold find_matching_column. split.
  - intros H. apply Forall_forall. intros c Hc.
    apply (List.find_none _ _ H). by apply list_elem_of_In.
  - induction 1 as [|c cs Hc _ IH]; simpl; [done | by rewrite Hc].
Qed.



End naming.

(** ** Row labels *)

Section labels.









Lemma length_positional n c : length (positional n c).2 = n.
Proof.
  unfold positional. destruct (n <=? length c.2) eqn:E; cbn [snd].
  - apply Nat.leb_le in E. rewrite length_take. lia.
  - apply Nat.leb_gt in E. rewrite length_app, length_fmap, length_replicate. lia.
Qed.

(** Row [i] of a column copied by position is row [i] of the source, or the
    missing marker past its end. *)
Lemma positional_lookup n c i :
  (positional n c).2 !! i =
  if decide (i < n) then
    Some (match c.2 !! i with
          | Some x => if (n <=? length c.2)%nat then x else promote_cell c.1 x
          | None => NaN
          end)
  else None.
Proof.
  unfold positional. destruct (n <=? length c.2) eqn:E; cbn [snd].
  - apply Nat.leb_le in E. case_decide as Hi.
    + rewrite lookup_take_lt by lia.
      destruct (lookup_lt_is_Some_2 c.2 i) as [x ->]; [lia | done].
    + apply lookup_ge_None_2. rewrite length_take. lia.
  - apply Nat.leb_gt in E. case_decide as Hi.
    + destruct (decide (i < length c.2)) as [Hs|Hs].
      * rewrite lookup_app_l by (rewrite length_fmap; lia).
        rewrite list_lookup_fmap.
        destruct (lookup_lt_is_Some_2 c.2 i) as [x ->]; [lia | done].
      * rewrite lookup_app_r by (rewrite length_fmap; lia).
        rewrite length_fmap, (lookup_ge_None_2 c.2 i) by lia.
        apply lookup_replicate_2. lia.
    + apply lookup_ge_None_2. rewrite length_app, length_fmap, length_replicate. lia.
Qed.

(** A column of the same length is copied as it is. *)
Lemma positional_same c : positional (length c.2) c = c.
Proof.
  unfold positional. rewrite Nat.leb_refl, firstn_all. by destruct c.
Qed.

End labels.

(** ** Column assignment *)

Section assignment.



(** A frame without rows takes the row labels of a non-empty value; a
    frame that has rows keeps its own. *)
Lemma ensure_valid_index_index df v :
  index (ensure_valid_index df v) =
  if decide (len df = 0 ∧ 0 < length (s_index v)) then s_index v else index df.
Proof.
  unfold ensure_valid_index.
  destruct (decide (len df = 0 ∧ 0 < length (s_index v))) as [[H1 H2]|H].
  - rewrite H1. apply Nat.ltb_lt in H2. rewrite H2. done.
  - destruct (len df =? 0) eqn:E1; [|done].
    destruct (0 <? length (s_index v)) eqn:E2; [|done].
    apply Nat.eqb_eq in E1. apply Nat.ltb_lt in E2. lia.
Qed.

Lemma setitem_Some df name v df' :
  pandas.setitem df name v = Some df' →
  ∃ col, reindex v (index (ensure_valid_index df v)) = Some col ∧
         df' = mkDF (index (ensure_valid_index df v))
                    (put_column name col (cols (ensure_valid_index df v))).
Proof.
  unfold pandas.setitem.
  destruct (reindex v (index (ensure_valid_index df v))) as [col|]; [|done].
  simpl. intros [= <-]. eauto.
Qed.


Lemma setitem_index df name v df' :
  pandas.setitem df name v = Some df' →
  index df' =
  if decide (len df = 0 ∧ 0 < length (s_index v)) then s_index v else index df.
Proof.
  intros (col & _ & ->)%setitem_Some. cbn [index]. apply ensure_valid_index_index.
Qed.

Lemma setitem_index_pos df name v df' :
  0 < len df → pandas.setitem df name v = Some df' → index df' = index df.
Proof.
  intros H Hs. rewrite (setitem_index _ _ _ _ Hs), decide_False by lia. done.
Qed.



Lemma reindex_equal s : reindex s (s_index s) = Some (s_dtype s, s_values s).
Proof. unfold reindex. by rewrite decide_True. Qed.




Lemma elem_of_assign_name names name : name ∈ assign_name names name.
Proof.
  unfold assign_name. case_bool_decide; [done|].
  apply elem_of_app. right. apply list_elem_of_here.
Qed.





Lemma getitem_is_Some df c : c ∈ columns df → is_Some (pandas.getitem df c).
Proof.
  unfold pandas.getitem, columns. intros H.
  enough (is_Some (getitem_cols (cols df) c)) as [x ->] by (simpl; eauto).
  revert H. induction (cols df) as [|[k v] cs IH]; simpl.
  - by intros ?%elem_of_nil.
  - intros [->|H]%elem_of_cons.
    + rewrite String.eqb_refl. eauto.
    + destruct (String.eqb k c); eauto.
Qed.








Lemma getitem_put_column_ne name v cs c :
  c ≠ name → getitem_cols (put_column name v cs) c = getitem_cols cs c.
Proof.
  intros Hne. induction cs as [|[k old] cs IH]; simpl.
  - by destruct (String.eqb_spec name c); [congruence|].
  - destruct (String.eqb_spec k name) as [->|Hk]; simpl.
    + by destruct (String.eqb_spec name c); [congruence|].
    + by rewrite IH.
Qed.

(** Assignment to a frame that has rows leaves its other columns as they
    are. *)
Lemma getitem_setitem_ne df name v c df' :
  0 < len df → c ≠ name → pandas.setitem df name v = Some df' →
  pandas.getitem df' c = pandas.getitem df c.
Proof.
  intros Hpos Hne Hs. pose proof (setitem_index_pos _ _ _ _ Hpos Hs) as Hidx.
  apply setitem_Some in Hs as (col & Hcol & ->).
  unfold pandas.getitem. cbn [cols index] in *. rewrite Hidx.
  rewrite getitem_put_column_ne by done.
  unfold ensure_valid_index. destruct (len df =? 0) eqn:E; [|done].
  apply Nat.eqb_eq in E. lia.
Qed.

(** the sample tables are frames as the reader produces them *)
Example sample_tables_well_formed :
  Forall well_formed
         [sample.channel_xyz; sample.three_rows; sample.header_only;
          sample.no_channel; sample.x_only].
Proof.
  repeat constructor; cbn; try (intros ?%elem_of_nil; done);
    rewrite ?not_elem_of_cons; split_and?; try discriminate; apply not_elem_of_nil.
Qed.

Example sample_tables_default_index :
  Forall has_default_index
         [sample.channel_xyz; sample.three_rows; sample.header_only;
          sample.no_channel; sample.x_only].
Proof. repeat constructor. Qed.

End assignment.

(** ** Running frame operations *)

Section heap.

Lemma world_eta w : World (frames w) (fs w) (trace w) = w.
Proof. by destruct w. Qed.

Lemma bind_ret {A B} (m : M A) (k : A → M B) w a w' :
  m w = (Ret a, w') → bind m k w = k a w'.
Proof. unfold bind. by intros ->. Qed.

Lemma bind_raise {A B} (m : M A) (k : A → M B) w e w' :
  m w = (Raise e, w') → bind m k w = (Raise e, w').
Proof. unfold bind. by intros ->. Qed.

Lemma get_live l w df : frames w !! l = Some df → frame.get l w = (Ret df, w).
Proof. unfold frame.get. by intros ->. Qed.

Lemma new_fresh w : fresh (dom (frames w)) ∉ dom (frames w).
Proof. apply is_fresh. Qed.

Lemma new_fresh_lookup w : frames w !! fresh (dom (frames w)) = None.
Proof. apply not_elem_of_dom, is_fresh. Qed.

Lemma live_not_fresh w l df : frames w !! l = Some df → l ≠ fresh (dom (frames w)).
Proof. intros H ->. by rewrite new_fresh_lookup in H. Qed.

Lemma setitem_live l name v w df df' :
  frames w !! l = Some df → pandas.setitem df name v = Some df' →
  frame.setitem l name v w =
  (Ret tt, World (<[l := df']> (frames w)) (fs w) (trace w)).
Proof.
  intros H Hs. unfold frame.setitem.
  by rewrite (bind_ret _ _ _ _ _ (get_live _ _ _ H)), Hs.
Qed.

Lemma setitem_raises l name v w df :
  frames w !! l = Some df → pandas.setitem df name v = None →
  frame.setitem l name v w = (Raise frame.alignment_error, w).
Proof.
  intros H Hs. unfold frame.setitem.
  by rewrite (bind_ret _ _ _ _ _ (get_live _ _ _ H)), Hs.
Qed.

Lemma getitem_live l name w df s :
  frames w !! l = Some df → pandas.getitem df name = Some s →
  frame.getitem l name w = (Ret s, w).
Proof.
  intros H Hs. unfold frame.getitem.
  rewrite (bind_ret _ _ _ _ _ (get_live _ _ _ H)), Hs. done.
Qed.

Lemma updates_step result r1 o w res :
  updates result o (World (<[result := r1]> (frames w)) (fs w) (trace w)) res →
  updates result o w res.
Proof.
  unfold updates. cbn [frames fs trace]. destruct o as [r'|].
  - by rewrite insert_insert_eq.
  - intros [r' ->]. exists r'. by rewrite insert_insert_eq.
Qed.

Lemma updates_bind result o w (m : M unit) (k : unit → M unit) r1 :
  m w = (Ret tt, World (<[result := r1]> (frames w)) (fs w) (trace w)) →
  updates result o (World (<[result := r1]> (frames w)) (fs w) (trace w))
          (k tt (World (<[result := r1]> (frames w)) (fs w) (trace w))) →
  updates result o w (bind m k w).
Proof.
  intros Hm Hk. rewrite (bind_ret _ _ _ _ _ Hm). by apply updates_step with r1.
Qed.

Lemma updates_raise result w (m : M unit) (k : unit → M unit) r1 :
  m w = (Raise frame.alignment_error,
         World (<[result := r1]> (frames w)) (fs w) (trace w)) →
  updates result None w (bind m k w).
Proof. intros Hm. rewrite (bind_raise _ _ _ _ _ Hm). by exists r1. Qed.

End heap.

(** ** The merge, read on table values *)

Section merge_values.
Import utils.

Lemma dict_set_keys (d : dict) k v :
  (dict_set d k v).*1 = if bool_decide (k ∈ d.*1) then d.*1 else d.*1 ++ [k].
Proof.
  induction d as [|[k' v'] d IH].
  - done.
  - cbn [dict_set]. destruct (String.eqb_spec k' k) as [->|Hne];
      rewrite !fmap_cons; cbn [fst].
    + rewrite bool_decide_eq_true_2 by apply list_elem_of_here. done.
    + rewrite IH. destruct (bool_decide (k ∈ d.*1)) eqn:E.
      * apply bool_decide_eq_true_1 in E.
        rewrite bool_decide_eq_true_2 by (by apply list_elem_of_further). done.
      * apply bool_decide_eq_false_1 in E.
        rewrite bool_decide_eq_false_2; [done|].
        intros [?|?]%elem_of_cons; congruence.
Qed.

Lemma add_role_keys (d : dict) col new (cs : list string) :
  (∀ c, col = Some c → c ∈ cs) →
  Forall (fun it => it.1 ∈ cs) d → Forall (fun it => it.1 ∈ cs) (add_role d col new).
Proof.
  intros Hc Hd. unfold add_role. destruct col as [c|]; [|done].
  destruct (truthy_str (Some c)); [|done].
  apply (Forall_fmap fst (fun c => c ∈ cs)). rewrite dict_set_keys.
  apply (Forall_fmap fst (fun c => c ∈ cs)) in Hd. case_bool_decide; [done|].
  apply Forall_app. split; [done|]. apply Forall_singleton. by apply Hc.
Qed.

(** every source column named by the dictionary is a column of the table *)
Lemma columns_to_add_keys suffix (cs : list string) :
  Forall (fun it => it.1 ∈ cs) (columns_to_add suffix cs).
Proof.
  unfold columns_to_add.
  repeat (apply add_role_keys;
          [intros c Hc; by apply find_matching_column_Some in Hc as [? _]|]).
  constructor.
Qed.

End merge_values.

(** ** The merge loop on the heap *)

Section merge_run.
Import utils.

(** The assignments of one table run as [assign_all] says: they return
    with the result updated, or the first assignment that cannot be aligned
    raises. *)
Lemma add_columns_run result df items w r d :
  result ≠ df → frames w !! result = Some r → frames w !! df = Some d →
  Forall (fun it => it.1 ∈ columns d) items →
  updates result (assign_all d r items) w (add_columns result df items w).
Proof.
  intros Hne Hr Hd Hitems. revert w r Hr Hd.
  induction Hitems as [|[orig new] items Hin _ IH]; intros w r Hr Hd.
  - simpl. unfold ret. by rewrite insert_id, world_eta.
  - cbn [add_columns assign_all].
    destruct (getitem_is_Some d orig Hin) as [s Hs]. rewrite Hs. cbn [mbind option_bind].
    rewrite (bind_ret _ _ _ _ _ (getitem_live _ _ _ _ _ Hd Hs)).
    destruct (pandas.setitem r new s) as [r1|] eqn:Hset; cbn [mbind option_bind].
    + apply updates_bind with r1; [by apply setitem_live with r|].
      apply IH; cbn [frames].
      * by rewrite lookup_insert_eq.
      * by rewrite lookup_insert_ne.
    + apply updates_raise with r.
      rewrite (setitem_raises _ _ _ _ _ Hr Hset). by rewrite insert_id, world_eta.
Qed.

Lemma merge_one_run result idx df file_name w r d :
  result ≠ df → frames w !! result = Some r → frames w !! df = Some d →
  updates result (merged_one idx r d file_name) w
          (merge_one result idx df file_name w).
Proof.
  intros Hne Hr Hd. unfold merge_one.
  rewrite (bind_ret _ _ _ _ _ (get_live _ _ _ Hd)).
  apply add_columns_run; auto using columns_to_add_keys.
Qed.

Lemma deref_items_insert h result r items :
  Forall (fun it => it.1 ≠ result) items →
  deref_items (<[result := r]> h) items = deref_items h items.
Proof.
  intros H. unfold deref_items. apply Forall_fmap_ext_1.
  eapply Forall_impl; [exact H|]. intros [l n] Hl. cbn [fst snd] in *.
  by rewrite lookup_insert_ne.
Qed.

Lemma merge_loop_run result idx items w r :
  frames w !! result = Some r →
  Forall (fun it => it.1 ≠ result ∧ is_Some (frames w !! it.1)) items →
  updates result (merged_all idx r (deref_items (frames w) items)) w
          (merge_loop result idx items w).
Proof.
  intros Hr Hitems. revert idx w r Hr Hitems.
  induction items as [|[df name] items IH]; intros idx w r Hr Hitems.
  - simpl. unfold ret. by rewrite insert_id, world_eta.
  - apply Forall_cons in Hitems as [[Hne [d Hd]] Hitems]. cbn [fst] in *.
    cbn [merge_loop]. unfold deref_items. rewrite fmap_cons. cbn [fst snd merged_all].
    rewrite Hd. change (default empty_frame (Some d)) with d.
    pose proof (merge_one_run _ idx _ name _ _ _ (not_eq_sym Hne) Hr Hd) as Hone.
    destruct (merged_one idx r d name) as [r1|]; cbn [mbind option_bind].
    + unfold updates in Hone. apply updates_bind with r1; [exact Hone|].
      pose proof (IH (S idx) (World (<[result := r1]> (frames w)) (fs w) (trace w)) r1)
        as IH'.
      cbn [frames] in IH'. rewrite deref_items_insert in IH'
        by (eapply Forall_impl; [exact Hitems|]; by intros ? [? _]).
      apply IH'.
      * by rewrite lookup_insert_eq.
      * eapply Forall_impl; [exact Hitems|]. intros [l n] [Hl [x Hx]]. cbn [fst] in *.
        split; [done|]. rewrite lookup_insert_ne by done. eauto.
    + destruct Hone as [r1 Hone]. by apply updates_raise with r1.
Qed.

Lemma Forall_zip_fst {A B} (P : A → Prop) (l : list A) (k : list B) :
  Forall P l → Forall (fun it => P it.1) (zip l k).
Proof.
  intros H. revert k. induction H as [|x l Hx _ IH]; intros [|y k]; simpl;
    constructor; auto.
Qed.

(** The merge of live tables whose first has a channel column works on a
    new object alone: it returns it holding the value-level merge, or
    raises the alignment error. Nothing else changes. *)
Lemma merge_dataframes_run self first_df rest file_names w first time_col :
  frames w !! first_df = Some first →
  Forall (fun l => is_Some (frames w !! l)) rest →
  find_matching_column "channel" (columns first) = Some time_col →
  match merged_all 2 first (deref_items (frames w) (zip rest (tail file_names))) with
  | Some m =>
      merge_dataframes self (first_df :: rest) file_names w =
      (Ret (fresh (dom (frames w))),
       World (<[fresh (dom (frames w)) := m]> (frames w)) (fs w) (trace w))
  | None =>
      ∃ m, merge_dataframes self (first_df :: rest) file_names w =
           (Raise frame.alignment_error,
            World (<[fresh (dom (frames w)) := m]> (frames w)) (fs w) (trace w))
  end.
Proof.
  intros Hfirst Hrest Hchan.
  set (r := fresh (dom (frames w))).
  set (w1 := World (<[r := first]> (frames w)) (fs w) (trace w)).
  assert (Hr : frames w !! r = None) by apply new_fresh_lookup.
  assert (first_df ≠ r) as Hne by (by apply live_not_fresh with first).
  assert (merge_dataframes self (first_df :: rest) file_names w =
          bind (merge_loop r 2 (zip rest (tail file_names))) (fun _ => ret r) w1) as ->.
  { unfold merge_dataframes, frame.copy.
    rewrite (bind_ret _ _ _ _ _ (bind_ret _ _ _ _ _ (get_live _ _ _ Hfirst))).
    unfold frame.new at 1. fold r. fold w1.
    erewrite bind_ret; last first.
    { apply get_live. unfold w1. cbn [frames]. rewrite lookup_insert_ne by done.
      exact Hfirst. }
    by rewrite Hchan. }
  assert (Forall (fun it : loc * string => it.1 ≠ r ∧ is_Some (frames w !! it.1))
                 (zip rest (tail file_names))) as Hitems.
  { apply (Forall_zip_fst (fun l => l ≠ r ∧ is_Some (frames w !! l))).
    eapply Forall_impl; [exact Hrest|]. intros l [x Hx]. split; [|eauto].
    by apply live_not_fresh with x. }
  pose proof (merge_loop_run r 2 (zip rest (tail file_names)) w1 first) as Hloop.
  assert (frames w1 = <[r := first]> (frames w)) as Hw1 by done.
  rewrite Hw1 in Hloop.
  rewrite deref_items_insert in Hloop
    by (eapply Forall_impl; [exact Hitems|]; by intros ? [? _]).
  specialize (Hloop (lookup_insert_eq _ _ _)).
  assert (Forall (fun it : loc * string =>
                    it.1 ≠ r ∧ is_Some (<[r := first]> (frames w) !! it.1))
                 (zip rest (tail file_names))) as Hitems'.
  { eapply Forall_impl; [exact Hitems|]. intros it [? [x Hx]]. split; [done|].
    rewrite lookup_insert_ne by done. eauto. }
  specialize (Hloop Hitems'). unfold updates in Hloop.
  destruct (merged_all 2 first (deref_items (frames w) (zip rest (tail file_names))))
    as [m|].
  - rewrite (bind_ret _ _ _ _ _ Hloop). unfold ret, w1. cbn [frames fs trace].
    by rewrite insert_insert_eq.
  - destruct Hloop as [m Hloop]. exists m.
    rewrite (bind_raise _ _ _ _ _ Hloop). unfold w1. cbn [frames fs trace].
    by rewrite insert_insert_eq.
Qed.

End merge_run.

(** ** Value-level facts about the merge *)

Section merge_facts.
Import utils.

Lemma find_matching_column_is_Some kw (cs : list string) c :
  c ∈ cs → contains kw (lower c) = true → is_Some (find_matching_column kw cs).
Proof.
  intros Hin Hc. destruct (find_matching_column kw cs) eqn:E; [eauto|].
  apply find_matching_column_None in E.
  rewrite Forall_forall in E. specialize (E c Hin). congruence.
Qed.


















End merge_facts.

(** ** Objects the merge leaves alone *)

Section merge_frame.
Import utils.

Lemma bind_keeps {A B} (l : loc) (m : M A) (k : A → M B) w :
  frames (m w).2 !! l = frames w !! l →
  (∀ a w1, m w = (Ret a, w1) → frames (k a w1).2 !! l = frames w1 !! l) →
  frames (bind m k w).2 !! l = frames w !! l.
Proof.
  unfold bind. destruct (m w) as [[a|e] w1]; cbn [snd]; intros H1 H2; [|done].
  by rewrite (H2 a w1).
Qed.

Lemma get_world l w : (frame.get l w).2 = w.
Proof. unfold frame.get. by destruct (frames w !! l). Qed.

Lemma getitem_world l name w : (frame.getitem l name w).2 = w.
Proof.
  unfold frame.getitem, bind, frame.get.
  destruct (frames w !! l) as [df|]; [|done]. by destruct (pandas.getitem df name).
Qed.

Lemma setitem_keeps l name v w l' :
  l' ≠ l → frames (frame.setitem l name v w).2 !! l' = frames w !! l'.
Proof.
  intros Hne. unfold frame.setitem, bind, frame.get, frame.put.
  destruct (frames w !! l) as [df|]; cbn [snd frames]; [|done].
  destruct (pandas.setitem df name v); cbn [snd frames]; [|done].
  by rewrite lookup_insert_ne.
Qed.

Lemma new_keeps df w l x :
  frames w !! l = Some x → frames (frame.new df w).2 !! l = Some x.
Proof.
  intros H. unfold frame.new. cbn [snd frames].
  rewrite lookup_insert_ne; [done|]. apply not_eq_sym. by apply live_not_fresh with x.
Qed.

Lemma add_columns_keeps result df items w l :
  l ≠ result → frames (add_columns result df items w).2 !! l = frames w !! l.
Proof.
  intros Hne. revert w. induction items as [|[orig new] items IH]; intros w; [done|].
  cbn [add_columns]. apply bind_keeps; [by rewrite getitem_world|].
  intros s w1 _. apply bind_keeps; [by apply setitem_keeps|].
  intros _ w2 _. apply IH.
Qed.

Lemma merge_loop_keeps result idx items w l :
  l ≠ result → frames (merge_loop result idx items w).2 !! l = frames w !! l.
Proof.
  intros Hne. revert idx w. induction items as [|[df name] items IH]; intros idx w; [done|].
  cbn [merge_loop]. apply bind_keeps.
  - unfold merge_one. apply bind_keeps; [by rewrite get_world|].
    intros d w1 _. by apply add_columns_keeps.
  - intros _ w1 _. apply IH.
Qed.

(** Whatever the merge does, every object that was live before it has the
    same contents after it. *)
Lemma merge_dataframes_keeps self dfs file_names w l x :
  frames w !! l = Some x →
  frames (merge_dataframes self dfs file_names w).2 !! l = Some x.
Proof.
  intros Hl. unfold merge_dataframes. destruct dfs as [|first_df rest].
  { by apply new_keeps. }
  unfold frame.copy, bind at 1 2, frame.get at 1.
  destruct (frames w !! first_df) as [first|] eqn:Hfirst; [|done].
  unfold frame.new at 1.
  set (r := fresh (dom (frames w))).
  assert (l ≠ r) as Hne by (by apply live_not_fresh with x).
  set (w1 := World (<[r:=first]> (frames w)) (fs w) (trace w)).
  assert (frames w1 !! l = Some x) as Hl1.
  { unfold w1. cbn [frames]. by rewrite lookup_insert_ne. }
  clearbody w1. rewrite <- Hl1. apply bind_keeps; [by rewrite get_world|].
  intros d w2 Hw2. assert (w2 = w1) as ->.
  { pose proof (get_world first_df w1) as E. by rewrite Hw2 in E. }
  destruct (find_matching_column "channel" (columns d)).
  - apply bind_keeps; [by apply merge_loop_keeps|]. done.
  - apply bind_keeps; [done|]. intros a w3 [= _ <-].
    rewrite (new_keeps _ _ l x); cbn [frames]; by rewrite Hl1.
Qed.

(** Assignment does mutate the object it is applied to; the merge leaves its
    inputs alone only because it assigns to the copy. *)
Example setitem_mutates_in_place :
  frames (frame.setitem 1%positive "X_2"
            (mkSeries (default_index 1) int64 [Val "9"])
            (sample.world_of [sample.x_only])).2 !! 1%positive
  = Some (sample.table 2 [("X", (int64, [Val "3"; Val "4"]));
                          ("X_2", (float64, [Upcast "9"; NaN]))]).
Proof. reflexivity. Qed.

(** An assignment raises when the labels of the value repeat and are not
    those of the frame, and gives the missing marker under labels the value
    does not have. *)
Example setitem_repeated_labels :
  pandas.setitem sample.channel_xyz "X_2"
    (mkSeries [Key "a"; Key "a"] int64 [Val "3"; Val "4"]) = None.
Proof. reflexivity. Qed.

Example setitem_other_labels :
  pandas.setitem sample.x_only "X_2"
    (mkSeries [Key "a"; Key "b"] int64 [Val "3"; Val "4"])
  = Some (sample.table 2 [("X", (int64, [Val "3"; Val "4"]));
                          ("X_2", (float64, [NaN; NaN]))]).
Proof. reflexivity. Qed.

End merge_frame.

(** ** Properties of [merge_dataframes] *)

Section merge_properties.
Import utils.

(** C4. If the sequence of tables is empty, or the first table has no column
    whose lowercase name contains "channel", the merge returns an empty
    table and does not raise. *)
Theorem merge_dataframes_void self dfs file_names w :
  (dfs = [] ∨
   ∃ first_df rest first,
     dfs = first_df :: rest ∧ frames w !! first_df = Some first ∧
     Forall (fun c => contains "channel" (lower c) = false) (columns first)) →
  ∃ merged_df w',
    merge_dataframes self dfs file_names w = (Ret merged_df, w') ∧
    frames w' !! merged_df = Some empty_frame.
Proof.
  intros [-> | (first_df & rest & first & -> & Hfirst & Hnone)].
  - eexists _, _. split; [reflexivity|]. cbn [frames]. apply lookup_insert_eq.
  - apply find_matching_column_None in Hnone.
    unfold merge_dataframes, frame.copy.
    rewrite (bind_ret _ _ _ _ _ (bind_ret _ _ _ _ _ (get_live _ _ _ Hfirst))).
    unfold frame.new at 1.
    erewrite bind_ret; last first.
    { apply get_live. cbn [frames]. rewrite lookup_insert_ne; [exact Hfirst|].
      apply not_eq_sym. by apply live_not_fresh with first. }
    rewrite Hnone. eexists _, _. split; [reflexivity|].
    cbn [frames]. apply lookup_insert_eq.
Qed.

Lemma merge_dataframes_void_witness :
  ∃ merged_df w',
    merge_dataframes sample.merger_a [1%positive] ["Ex1.csv"]
                     (sample.world_of [sample.no_channel]) = (Ret merged_df, w') ∧
    frames w' !! merged_df = Some empty_frame.
Proof.
  apply merge_dataframes_void. right.
  exists 1%positive, [], sample.no_channel.
  split_and!; [reflexivity | reflexivity | vm_compute; repeat constructor].
Defined.

(** C5, as the code has it. Merging a single table that has a channel column
    yields a new table equal to that table: same columns, same rows, nothing
    added; the input itself is left as it was. *)
Theorem merge_single self df file_names w table :
  frames w !! df = Some table →
  (∃ c, c ∈ columns table ∧ contains "channel" (lower c) = true) →
  ∃ merged_df w',
    merge_dataframes self [df] file_names w = (Ret merged_df, w') ∧
    merged_df ≠ df ∧
    frames w' !! merged_df = Some table ∧
    frames w' !! df = Some table.
Proof.
  intros Hdf (c & Hc & Hchan).
  destruct (find_matching_column_is_Some "channel" _ c Hc Hchan) as [time_col Htime].
  pose proof (merge_dataframes_run self df [] file_names w table time_col Hdf
                (Forall_nil_2 _) Htime) as Hrun.
  cbn [zip zip_with deref_items fmap list_fmap merged_all] in Hrun.
  eexists _, _. split; [exact Hrun|].
  assert (df ≠ fresh (dom (frames w))) by (by apply live_not_fresh with table).
  cbn [frames].
  split_and!; [done | apply lookup_insert_eq | by rewrite lookup_insert_ne].
Qed.

Lemma merge_single_witness :
  ∃ merged_df w',
    merge_dataframes sample.merger_a [1%positive] ["Ex1.csv"]
                     (sample.world_of [sample.channel_xyz]) = (Ret merged_df, w') ∧
    merged_df ≠ 1%positive ∧
    frames w' !! merged_df = Some sample.channel_xyz ∧
    frames w' !! 1%positive = Some sample.channel_xyz.
Proof.
  apply merge_single; [reflexivity|].
  exists "Channel". split; [apply list_elem_of_here | reflexivity].
Defined.

(** C5, as stated, fails: a single table without a channel column is merged
    into the empty table, not into a copy of itself. *)
Lemma merge_single_without_channel :
  ∃ merged_df w',
    merge_dataframes sample.merger_a [1%positive] ["Ex1.csv"]
                     (sample.world_of [sample.no_channel]) = (Ret merged_df, w') ∧
    frames w' !! merged_df = Some empty_frame ∧
    frames w' !! merged_df ≠ Some sample.no_channel.
Proof.
  eexists _, _. split_and!; [vm_compute; reflexivity | reflexivity | ].
  vm_compute. discriminate.
Qed.





(** A later table whose row labels repeat makes the merge raise: the
    assignment cannot align its columns on the labels of the result. *)
Example merge_repeated_labels_raises :
  ∃ w',
    merge_dataframes sample.merger_a [1%positive; 2%positive] ["Ex1.csv"; "Ex2.csv"]
                     (sample.world_of [sample.channel_xyz; sample.repeated_labels])
    = (Raise frame.alignment_error, w').
Proof. eexists. vm_compute. reflexivity. Qed.

(** A later table under other row labels contributes the missing marker,
    not its values. *)
Example merge_other_labels :
  ∃ merged_df w' merged,
    merge_dataframes sample.merger_a [1%positive; 2%positive] ["Ex1.csv"; "Ex2.csv"]
                     (sample.world_of [sample.channel_xyz; sample.labelled])
    = (Ret merged_df, w') ∧
    frames w' !! merged_df = Some merged ∧
    pandas.getitem merged "X_Ex2"
    = Some (mkSeries (default_index 2) float64 [NaN; NaN]).
Proof. eexists _, _, _. split_and!; [vm_compute; reflexivity | reflexivity | reflexivity]. Qed.

(** Padding converts an integer column: the values of a shorter table are
    not the fields that were read. *)
Example merge_padding_converts :
  ∃ merged_df w' merged,
    merge_dataframes sample.merger_a [1%positive; 2%positive] ["Ex1.csv"; "Ex2.csv"]
                     (sample.world_of [sample.three_rows; sample.x_only])
    = (Ret merged_df, w') ∧
    frames w' !! merged_df = Some merged ∧
    pandas.getitem merged "X_Ex2"
    = Some (mkSeries (default_index 3) float64 [Upcast "3"; Upcast "4"; NaN]).
Proof. eexists _, _, _. split_and!; [vm_compute; reflexivity | reflexivity | reflexivity]. Qed.

(** C10. The merge does not mutate its inputs: every table handed to it,
    the first included, has the same contents after the merge as before. *)
Theorem merge_dataframes_inputs_unchanged self dfs file_names w df table :
  df ∈ dfs →
  frames w !! df = Some table →
  frames (merge_dataframes self dfs file_names w).2 !! df = Some table.
Proof. intros _. apply merge_dataframes_keeps. Qed.

Lemma merge_dataframes_inputs_unchanged_witness :
  frames (merge_dataframes sample.merger_a [1%positive; 2%positive]
            ["Ex1.csv"; "Ex2.csv"]
            (sample.world_of [sample.channel_xyz; sample.three_rows])).2
    !! 1%positive = Some sample.channel_xyz.
Proof.
  apply merge_dataframes_inputs_unchanged; [apply list_elem_of_here | reflexivity].
Defined.

End merge_properties.

(** ** Suffixes and contributed columns *)

Section contributed.
Import utils.

(** How the suffix is chosen: the exercise number when it is a non-zero
    integer, the position otherwise. *)
Lemma suffix_for_exercise idx file_name n :
  extract_ex_number file_name = Some n → n ≠ 0%N →
  suffix_for idx file_name = "_Ex" +:+ str_N n.
Proof.
  intros H Hn. unfold suffix_for. rewrite H. cbn [truthy_int fmt_int].
  by rewrite (proj2 (N.eqb_neq n 0) Hn).
Qed.

Lemma suffix_for_absent idx file_name :
  extract_ex_number file_name = None → suffix_for idx file_name = "_" +:+ str_nat idx.
Proof. intros H. unfold suffix_for. by rewrite H. Qed.

Lemma suffix_for_zero idx file_name :
  extract_ex_number file_name = Some 0%N →
  suffix_for idx file_name = "_" +:+ str_nat idx.
Proof. intros H. unfold suffix_for. by rewrite H. Qed.

(** C2, at the failing input: the second file is named for exercise 0; its
    exercise number is found, and yet its columns get the positional suffix
    "_2" instead of "_Ex0". *)
Theorem merge_suffix_exercise_zero :
  extract_ex_number "Ex0.csv" = Some 0%N ∧
  suffix_for 2 "Ex0.csv" = "_2" ∧
  ∃ merged_df w' merged,
    merge_dataframes sample.merger_a [1%positive; 2%positive] ["Ex1.csv"; "Ex0.csv"]
                     (sample.world_of [sample.channel_xyz; sample.three_rows])
    = (Ret merged_df, w') ∧
    frames w' !! merged_df = Some merged ∧
    columns merged = ["Channel"; "X"; "Y"; "Z"; "X_2"].
Proof.
  split_and!; [reflexivity | reflexivity |].
  eexists _, _, _. split_and!; [vm_compute; reflexivity | reflexivity | reflexivity].
Qed.










End contributed.

Section roles.
Import utils.











(** at the sample tables the assigned column holds the first two values of
    the source *)
Example merge_one_values :
  ∃ w' r',
    merge_one 2%positive 2 1%positive "Ex2.csv"
              (sample.world_of [sample.three_rows; sample.channel_xyz])
    = (Ret tt, w') ∧
    frames w' !! 2%positive = Some r' ∧
    pandas.getitem r' "X_Ex2"
    = Some (mkSeries (default_index 2) int64 [Val "7"; Val "8"]).
Proof. eexists _, _. split_and!; [vm_compute; reflexivity | reflexivity | reflexivity]. Qed.


(** Two roles matching one source column share one dictionary entry: here
    "Gyro_X" is the first column whose name contains "x" and also the first
    whose name contains "y", and only the later role's name is kept. *)
Example columns_to_add_shared_source :
  columns_to_add "_Ex2" ["Channel"; "Gyro_X"; "Gyro_Y"; "Gyro_Z"]
  = [("Gyro_X", "Y_Ex2"); ("Gyro_Z", "Z_Ex2")].
Proof. reflexivity. Qed.

End roles.

(** ** The constructor *)

Section constructor.

(** C8. The constructor looks at the root path only. It raises the
    root-not-found error exactly when the path does not exist, the
    not-a-directory error exactly when the path exists and is not a
    directory, and returns the merger exactly when the path is a directory;
    in every case the world is left as it was: nothing is scanned, printed
    or written. *)
Theorem init_checks_root module_file root w :
  (__init__ module_file root w).2 = w ∧
  (fs w !! root = None ↔
   (__init__ module_file root w).1 =
   Raise (FileNotFoundError ("Root path does not exist: " +:+ os.path_str root))) ∧
  ((∃ c, fs w !! root = Some (File c)) ↔
   (__init__ module_file root w).1 =
   Raise (NotADirectoryError ("Root path is not a directory: " +:+ os.path_str root))) ∧
  (fs w !! root = Some Dir ↔
   (__init__ module_file root w).1 = Ret (Merger root (path_parent module_file))).
Proof.
  unfold __init__, bind, os.path_exists, os.is_dir, raise, ret.
  destruct (fs w !! root) as [[|c]|] eqn:E; cbn; rewrite ?E; cbn.
  - split_and!; [done | | |]; split; try done. by intros [c Hc].
  - split_and!; [done | | |]; split; try done. eauto.
  - split_and!; [done | | |]; split; try done. by intros [c Hc].
Qed.

End constructor.

(** ** Reading the files of a class *)

Section reading.
Import utils.

Lemma saved_files_app t1 t2 : saved_files (t1 ++ t2) = saved_files t1 ++ saved_files t2.
Proof. unfold saved_files. apply omap_app. Qed.

Lemma saved_files_print t line : saved_files (t ++ [Print line]) = saved_files t.
Proof. rewrite saved_files_app. apply app_nil_r. Qed.

Lemma print_run line w :
  print line w = (Ret tt, World (frames w) (fs w) (trace w ++ [Print line])).
Proof. done. Qed.

Lemma read_csv_safely_loads self p w df :
  loads (fs w) p = Some df →
  read_csv_safely self p w =
  (Ret (fresh (dom (frames w)), true),
   World (<[fresh (dom (frames w)) := df]> (frames w)) (fs w) (trace w)).
Proof.
  unfold loads, read_csv_safely, try_except, bind, os.read_csv.
  destruct (fs w !! p) as [[|[df'|why]]|]; try done. by intros [= ->].
Qed.

Lemma read_csv_safely_fails self p w :
  loads (fs w) p = None →
  read_csv_safely self p w =
  (Ret (fresh (dom (frames w)), false),
   World (<[fresh (dom (frames w)) := empty_frame]> (frames w)) (fs w)
         (trace w ++ [Print ("  Error reading " +:+ path_name p)])).
Proof.
  unfold loads, read_csv_safely, try_except, bind, os.read_csv.
  by destruct (fs w !! p) as [[|[df'|why]]|].
Qed.


End reading.

(** ** Reasoning about computations that return *)

Section returns.

Lemma returns_ret {A} (a : A) w (Q : A → world → Prop) : Q a w → returns (ret a) w Q.
Proof. intros H. by exists a, w. Qed.

Lemma returns_bind {A B} (m : M A) (k : A → M B) w (Q : B → world → Prop) :
  returns m w (fun a w1 => returns (k a) w1 Q) → returns (bind m k) w Q.
Proof.
  intros (a & w1 & Hm & b & w2 & Hk & HQ). exists b, w2. split; [|done].
  by rewrite (bind_ret _ _ _ _ _ Hm).
Qed.

Lemma returns_mono {A} (m : M A) w (P Q : A → world → Prop) :
  returns m w P → (∀ a w', P a w' → Q a w') → returns m w Q.
Proof. intros (a & w' & Hm & HP) HPQ. exists a, w'. auto. Qed.

Lemma returns_print line w (Q : unit → world → Prop) :
  Q tt (World (frames w) (fs w) (trace w ++ [Print line])) → returns (print line) w Q.
Proof. intros H. by eexists _, _. Qed.

Lemma returns_new df w (Q : loc → world → Prop) :
  Q (fresh (dom (frames w)))
    (World (<[fresh (dom (frames w)) := df]> (frames w)) (fs w) (trace w)) →
  returns (frame.new df) w Q.
Proof. intros H. by eexists _, _. Qed.

Lemma returns_get l w df (Q : DataFrame → world → Prop) :
  frames w !! l = Some df → Q df w → returns (frame.get l) w Q.
Proof. intros Hl H. exists df, w. split; [by apply get_live | done]. Qed.

Lemma grows_refl w : grows w w.
Proof. by split_and!. Qed.

Lemma grows_trans w1 w2 w3 : grows w1 w2 → grows w2 w3 → grows w1 w3.
Proof.
  intros (Hf1 & Hs1 & Hl1) (Hf2 & Hs2 & Hl2). split_and!; [congruence..|auto].
Qed.

Lemma grows_print w line : grows w (World (frames w) (fs w) (trace w ++ [Print line])).
Proof. split_and!; cbn [fs trace frames]; [done | apply saved_files_print | done]. Qed.

Lemma grows_new w df :
  grows w (World (<[fresh (dom (frames w)) := df]> (frames w)) (fs w) (trace w)).
Proof.
  split_and!; cbn [fs trace frames]; [done..|].
  intros l x Hl. rewrite lookup_insert_ne; [done|].
  apply not_eq_sym. by apply live_not_fresh with x.
Qed.

End returns.

Section reading_loop.
Import utils.

Lemma getkey_run (d : gmap string pyval) k v w : d !! k = Some v → getkey d k w = (Ret v, w).
Proof. unfold getkey. by intros ->. Qed.

Lemma readable_cons_Some tree p files df :
  loads tree p = Some df → readable tree (p :: files) = p :: readable tree files.
Proof.
  intros H. unfold readable. cbn [List.filter].
  rewrite bool_decide_eq_true_2; [done | rewrite H; eauto].
Qed.

Lemma readable_cons_None tree p files :
  loads tree p = None → readable tree (p :: files) = readable tree files.
Proof.
  intros H. unfold readable. cbn [List.filter].
  rewrite bool_decide_eq_false_2; [done | rewrite H; by intros [? ?]].
Qed.

(** The reading loop keeps exactly the files the reader can load, in order:
    their tables become new frames, their names and descriptors are
    recorded, and the other files leave no entry. *)
Lemma read_files_run self csv_files dataframes file_names
      (metadata : gmap string pyval) files0 w :
  metadata !! "files" = Some (PFiles files0) →
  ∃ new_dfs w',
    read_files self csv_files dataframes file_names metadata w =
      (Ret (dataframes ++ new_dfs,
            file_names ++ (path_name <$> readable (fs w) csv_files),
            <["files" := PFiles (files0 ++ omap (info_of (fs w)) csv_files)]> metadata),
       w') ∧
    Forall2 (fun l d => frames w' !! l = Some d) new_dfs (omap (loads (fs w)) csv_files) ∧
    grows w w'.
Proof.
  revert dataframes file_names metadata files0 w.
  induction csv_files as [|p rest IH]; intros dataframes file_names metadata files0 w Hfiles.
  - exists [], w. cbn [read_files readable List.filter omap list_omap fmap list_fmap].
    rewrite !app_nil_r, insert_id by done. split_and!; [done | constructor | apply grows_refl].
  - cbn [read_files]. rewrite (bind_ret _ _ _ _ _ (print_run _ _)).
    set (w1 := World (frames w) (fs w) (trace w ++ [Print _])).
    assert (grows w w1) as Hw1 by apply grows_print.
    destruct (loads (fs w) p) as [df|] eqn:E.
    + rewrite (bind_ret _ _ _ _ _ (read_csv_safely_loads self p w1 df E)).
      set (l := fresh (dom (frames w1))).
      set (w2 := World (<[l:=df]> (frames w1)) (fs w1) (trace w1)).
      assert (grows w1 w2) as Hw2 by apply grows_new.
      assert (frames w2 !! l = Some df) as Hl by apply lookup_insert_eq.
      rewrite (bind_ret _ _ _ _ _ (get_live _ _ _ Hl)).
      rewrite (bind_ret _ _ _ _ _ (getkey_run _ _ _ _ Hfiles)).
      cbn [as_files]. rewrite (bind_ret _ _ _ _ _ (eq_refl : ret files0 w2 = (Ret files0, w2))).
      destruct (IH (dataframes ++ [l]) (file_names ++ [path_name p])
                   (<["files" := PFiles (files0 ++
                        [FileInfo (path_name p) (extract_ex_number (path_name p))
                                  (len df) (width df)])]> metadata)
                   (files0 ++ [FileInfo (path_name p) (extract_ex_number (path_name p))
                                        (len df) (width df)]) w2)
        as (new_dfs & w' & Hrun & Hall & Hgrow).
      { apply lookup_insert_eq. }
      exists (l :: new_dfs), w'. split_and!.
      * rewrite Hrun. change (fs w2) with (fs w).
        rewrite (readable_cons_Some _ _ _ _ E), insert_insert_eq.
        cbn [omap list_omap]. unfold info_of at 2. rewrite E.
        rewrite fmap_cons, <- !app_assoc. done.
      * cbn [omap list_omap]. rewrite E. constructor; [|exact Hall].
        destruct Hgrow as (_ & _ & Hkeep). by apply Hkeep.
      * eauto using grows_trans.
    + rewrite (bind_ret _ _ _ _ _ (read_csv_safely_fails self p w1 E)).
      set (w2 := World _ (fs w1) _).
      assert (grows w1 w2) as Hw2.
      { apply (grows_trans _ (World (<[fresh (dom (frames w1)) := empty_frame]>
                                       (frames w1)) (fs w1) (trace w1)));
          [apply grows_new|].
        apply (grows_print (World (<[fresh (dom (frames w1)) := empty_frame]>
                                     (frames w1)) (fs w1) (trace w1))). }
      destruct (IH dataframes file_names metadata files0 w2 Hfiles)
        as (new_dfs & w' & Hrun & Hall & Hgrow).
      exists new_dfs, w'. split_and!.
      * cbn zeta iota beta. rewrite Hrun. change (fs w2) with (fs w).
        rewrite (readable_cons_None _ _ _ E). cbn [omap list_omap].
        unfold info_of at 2. rewrite E. done.
      * cbn [omap list_omap]. rewrite E. exact Hall.
      * eauto using grows_trans.
Qed.

End reading_loop.

Section class_processing.
Import utils.

Lemma get_csv_files_run self class_folder w :
  get_csv_files self class_folder w = (Ret (csv_files_of (fs w) class_folder), w).
Proof.
  unfold get_csv_files, bind, os.glob_csv, csv_files_of, ret.
  by destruct (fs w !! class_folder) as [[|c]|].
Qed.

Lemma grows_insert_fresh w h t df :
  grows w (World h (fs w) t) →
  grows w (World (<[fresh (dom h) := df]> h) (fs w) t).
Proof.
  intros Hg. eapply grows_trans; [exact Hg|].
  apply (grows_new (World h (fs w) t)).
Qed.

Lemma merge_dataframes_void_run self first_df rest file_names w first :
  frames w !! first_df = Some first →
  find_matching_column "channel" (columns first) = None →
  merge_dataframes self (first_df :: rest) file_names w =
  (Ret (fresh (dom (<[fresh (dom (frames w)) := first]> (frames w)))),
   World (<[fresh (dom (<[fresh (dom (frames w)) := first]> (frames w))) := empty_frame]>
            (<[fresh (dom (frames w)) := first]> (frames w)))
         (fs w) (trace w ++ [Print "  Warning: No time/channel column found"])).
Proof.
  intros Hfirst Hnone. unfold merge_dataframes, frame.copy.
  rewrite (bind_ret _ _ _ _ _ (bind_ret _ _ _ _ _ (get_live _ _ _ Hfirst))).
  unfold frame.new at 1.
  erewrite bind_ret; last first.
  { apply get_live. cbn [frames]. rewrite lookup_insert_ne; [exact Hfirst|].
    apply not_eq_sym. by apply live_not_fresh with first. }
  rewrite Hnone. done.
Qed.

Lemma Forall2_live (h : gmap loc DataFrame) (ls : list loc) (ds : list DataFrame) :
  Forall2 (fun l d => h !! l = Some d) ls ds → Forall (fun l => is_Some (h !! l)) ls.
Proof. induction 1; constructor; eauto. Qed.

Lemma deref_items_zip (h : gmap loc DataFrame) ls ds (names : list string) :
  Forall2 (fun l d => h !! l = Some d) ls ds →
  deref_items h (zip ls names) = zip ds names.
Proof.
  intros H. revert names. induction H as [|l d ls ds Hl _ IH]; intros [|n names];
    [done..|].
  unfold deref_items in *. cbn [zip zip_with fmap list_fmap fst snd].
  by rewrite Hl, IH.
Qed.

(** The merge of live tables does what [merged_table] says of their
    contents: it returns a live table holding the merged contents, or raises
    the alignment error; either way it writes no file and leaves every
    other object alone. *)
Lemma merge_dataframes_outcome self dfs file_names w tables :
  Forall2 (fun l d => frames w !! l = Some d) dfs tables →
  ∃ w', grows w w' ∧
    match merged_table tables file_names with
    | Some m =>
        ∃ merged_df, merge_dataframes self dfs file_names w = (Ret merged_df, w') ∧
                     frames w' !! merged_df = Some m
    | None => merge_dataframes self dfs file_names w = (Raise frame.alignment_error, w')
    end.
Proof.
  intros Hlive. destruct Hlive as [|first_df first rest tables Hfirst Hrest].
  { eexists. split; [apply grows_new|]. cbn [merged_table].
    eexists. split; [reflexivity|]. cbn [frames]. apply lookup_insert_eq. }
  cbn [merged_table].
  destruct (find_matching_column "channel" (columns first)) as [time_col|] eqn:Hchan.
  - pose proof (merge_dataframes_run self first_df rest file_names w first time_col
                  Hfirst (Forall2_live _ _ _ Hrest) Hchan) as Hrun.
    rewrite (deref_items_zip _ _ _ _ Hrest) in Hrun.
    destruct (merged_all 2 first (zip tables (tail file_names))) as [m|].
    + eexists. split; [apply grows_new|]. eexists. split; [exact Hrun|].
      cbn [frames]. apply lookup_insert_eq.
    + destruct Hrun as [m Hrun]. eexists. split; [apply (grows_new w m)|]. exact Hrun.
  - eexists. split; last first.
    { eexists. split; [by eapply merge_dataframes_void_run|].
      cbn [frames]. apply lookup_insert_eq. }
    apply grows_insert_fresh.
    apply (grows_trans _ (World (<[fresh (dom (frames w)) := first]> (frames w))
                                (fs w) (trace w))); [apply grows_new|].
    apply (grows_print (World _ (fs w) (trace w))).
Qed.

(** With a readable file in the folder, [process_class] reads the files,
    hands exactly the readable ones to the merge, in their sorted order and
    under their names, and goes on from the merge's result: given a live
    merged table it records the totals and returns. *)
Lemma process_class_to_merge self class_folder w :
  omap (loads (fs w)) (csv_files_of (fs w) class_folder) ≠ [] →
  ∃ dataframes w1 (k : loc → M (gmap string pyval)),
    grows w w1 ∧
    Forall2 (fun df table => frames w1 !! df = Some table) dataframes
            (omap (loads (fs w)) (csv_files_of (fs w) class_folder)) ∧
    process_class self class_folder w =
      bind (merge_dataframes self dataframes
              (path_name <$> readable (fs w) (csv_files_of (fs w) class_folder))) k w1 ∧
    ∀ merged_df w2 m,
      frames w2 !! merged_df = Some m →
      ∃ metadata line,
        k merged_df w2 =
          (Ret metadata, World (frames w2) (fs w2) (trace w2 ++ [Print line])) ∧
        metadata !! "class" = Some (PStr (path_name class_folder)) ∧
        metadata !! "merged_df" = Some (PFrame merged_df) ∧
        metadata !! "files" =
          Some (PFiles (omap (info_of (fs w)) (csv_files_of (fs w) class_folder))) ∧
        metadata !! "total_rows" = Some (PInt (len m)) ∧
        metadata !! "total_columns" = Some (PInt (width m)).
Proof.
  intros Hsome. unfold process_class.
  rewrite !(bind_ret _ _ _ _ _ (print_run _ _)).
  set (w0 := World _ _ _).
  assert (grows w w0) as Hw0.
  { unfold w0. split_and!; cbn [fs trace frames];
      [done | by rewrite !saved_files_print | done]. }
  assert (fs w0 = fs w) as Hfs0 by done. clearbody w0.
  rewrite (bind_ret _ _ _ _ _ (get_csv_files_run _ _ _)). rewrite Hfs0.
  destruct (csv_files_of (fs w) class_folder) as [|p rest] eqn:Hcsv; [done|].
  rewrite (bind_ret _ _ _ _ _ (print_run _ _)). rewrite <- Hcsv in *.
  set (w1 := World _ _ _).
  assert (grows w w1) as Hw1.
  { eapply grows_trans; [exact Hw0 | apply grows_print]. }
  assert (fs w1 = fs w) as Hfs1 by done. clearbody w1.
  set (metadata0 := <["total_columns":=PInt 0]> _).
  destruct (read_files_run self (csv_files_of (fs w) class_folder) [] [] metadata0 [] w1)
    as (dataframes & w2 & Hread & Hall & Hw2).
  { unfold metadata0. by rewrite !lookup_insert_ne, lookup_insert_eq by done. }
  rewrite Hfs1 in Hread, Hall. cbn [app] in Hread.
  rewrite (bind_ret _ _ _ _ _ Hread). cbn iota beta zeta.
  assert (grows w w2) as Hww2 by eauto using grows_trans.
  destruct dataframes as [|df dfs].
  { apply Forall2_nil_inv_l in Hall. congruence. }
  rewrite (bind_ret _ _ _ _ _ (print_run _ _)).
  set (w3 := World _ _ _).
  assert (grows w2 w3) as Hw3 by apply grows_print.
  assert (frames w3 = frames w2) as Hfr3 by done. clearbody w3.
  eexists (df :: dfs), w3, _. split_and!.
  - eauto using grows_trans.
  - by rewrite Hfr3.
  - reflexivity.
  - intros merged_df w4 m Hm. cbn beta.
    rewrite (bind_ret _ _ _ _ _ (get_live _ _ _ Hm)).
    rewrite (bind_ret _ _ _ _ _ (print_run _ _)). unfold ret.
    eexists _, _. split; [reflexivity|]. unfold metadata0. split_and!.
    + by rewrite !lookup_insert_ne, lookup_singleton_eq by done.
    + apply lookup_insert_eq.
    + by rewrite !lookup_insert_ne, lookup_insert_eq by done.
    + by rewrite !lookup_insert_ne, lookup_insert_eq by done.
    + by rewrite lookup_insert_ne, lookup_insert_eq by done.
Qed.

(** What [process_class] does, case by case: it returns the dictionary of
    the class with the class's merged table live, or raises the alignment
    error of the merge; either way it writes no file and changes no object
    that was live. *)
Lemma process_class_run self class_folder w :
  ∃ w',
    grows w w' ∧
    match class_merge (fs w) class_folder with
    | Some merged =>
        ∃ metadata merged_df,
          process_class self class_folder w = (Ret metadata, w') ∧
          metadata !! "class" = Some (PStr (path_name class_folder)) ∧
          metadata !! "merged_df" = Some (PFrame merged_df) ∧
          frames w' !! merged_df = Some merged ∧
          match csv_files_of (fs w) class_folder with
          | [] =>
              metadata !! "files" = Some (PFiles []) ∧
              metadata !! "total_rows" = None ∧
              metadata !! "total_columns" = None
          | _ :: _ =>
              metadata !! "files" =
                Some (PFiles (omap (info_of (fs w)) (csv_files_of (fs w) class_folder))) ∧
              metadata !! "total_rows" = Some (PInt (len merged)) ∧
              metadata !! "total_columns" = Some (PInt (width merged))
          end
    | None => process_class self class_folder w = (Raise frame.alignment_error, w')
    end.
Proof.
  unfold class_merge.
  destruct (omap (loads (fs w)) (csv_files_of (fs w) class_folder)) as [|t ts] eqn:Hloads.
  - (* nothing to merge *)
    cbn [merged_table]. unfold process_class.
    rewrite !(bind_ret _ _ _ _ _ (print_run _ _)).
    set (w0 := World _ _ _).
    assert (grows w w0) as Hw0.
    { unfold w0. split_and!; cbn [fs trace frames];
        [done | by rewrite !saved_files_print | done]. }
    assert (fs w0 = fs w) as Hfs0 by done. clearbody w0.
    rewrite (bind_ret _ _ _ _ _ (get_csv_files_run _ _ _)). rewrite Hfs0.
    destruct (csv_files_of (fs w) class_folder) as [|p rest] eqn:Hcsv.
    + rewrite (bind_ret _ _ _ _ _ (print_run _ _)).
      eexists. split; last first.
      { eexists _, _. split; [reflexivity|]. cbn [frames]. split_and!.
        - by rewrite !lookup_insert_ne, lookup_singleton_eq by done.
        - apply lookup_insert_eq.
        - apply lookup_insert_eq.
        - by rewrite lookup_insert_ne, lookup_insert_eq by done.
        - by rewrite !lookup_insert_ne, lookup_singleton_ne by done.
        - by rewrite !lookup_insert_ne, lookup_singleton_ne by done. }
      eapply grows_trans; [exact Hw0|]. cbn [frames fs trace].
      apply grows_insert_fresh, grows_print.
    + rewrite (bind_ret _ _ _ _ _ (print_run _ _)). rewrite <- Hcsv in *.
      set (w1 := World _ _ _).
      assert (grows w w1) as Hw1.
      { eapply grows_trans; [exact Hw0 | apply grows_print]. }
      assert (fs w1 = fs w) as Hfs1 by done. clearbody w1.
      set (metadata0 := <["total_columns":=PInt 0]> _).
      destruct (read_files_run self (csv_files_of (fs w) class_folder) [] [] metadata0 [] w1)
        as (dataframes & w2 & Hread & Hall & Hw2).
      { unfold metadata0. by rewrite !lookup_insert_ne, lookup_insert_eq by done. }
      rewrite Hfs1 in Hread, Hall. cbn [app] in Hread.
      rewrite (bind_ret _ _ _ _ _ Hread). cbn iota beta zeta.
      assert (grows w w2) as Hww2 by eauto using grows_trans.
      rewrite Hloads in Hall. apply Forall2_nil_inv_r in Hall. subst dataframes.
      rewrite (bind_ret _ _ _ _ _ (print_run _ _)).
      eexists. split; last first.
      { eexists _, _. split; [reflexivity|]. cbn [frames]. unfold metadata0.
        rewrite Hcsv. cbn iota. rewrite <- Hcsv. split_and!.
        - by rewrite !lookup_insert_ne, lookup_singleton_eq by done.
        - apply lookup_insert_eq.
        - apply lookup_insert_eq.
        - assert (omap (info_of (fs w)) (csv_files_of (fs w) class_folder) = []) as ->.
          { clear -Hloads. induction (csv_files_of (fs w) class_folder) as [|q qs IH];
              [done|]. cbn [omap list_omap] in *. unfold info_of at 1.
            destruct (loads (fs w) q); [done|]. by apply IH. }
          by rewrite lookup_insert_ne, lookup_insert_eq by done.
        - by rewrite !lookup_insert_ne, lookup_insert_eq by done.
        - by rewrite !lookup_insert_ne, lookup_insert_eq by done. }
      eapply grows_trans; [exact Hww2|]. cbn [frames fs trace].
      apply grows_insert_fresh, grows_print.
  - (* the readable files are merged *)
    destruct (process_class_to_merge self class_folder w)
      as (dataframes & w1 & k & Hw1 & Hall & Hrun & Hk); [by rewrite Hloads|].
    rewrite Hloads in Hall.
    destruct (merge_dataframes_outcome self dataframes
                (path_name <$> readable (fs w) (csv_files_of (fs w) class_folder))
                w1 (t :: ts) Hall) as (w2 & Hw2 & Hout).
    destruct (merged_table (t :: ts) _) as [m|].
    + destruct Hout as (merged_df & Hmerge & Hm).
      destruct (Hk merged_df w2 m Hm) as (metadata & line & Hkrun & Hc & Hd & Hf & Hr & Hcol).
      eexists. split; last first.
      { exists metadata, merged_df. split.
        - rewrite Hrun, (bind_ret _ _ _ _ _ Hmerge). exact Hkrun.
        - cbn [frames].
          destruct (csv_files_of (fs w) class_folder) as [|p rest] eqn:Hcsv; [done|].
          done. }
      eapply grows_trans; [exact Hw1|]. eapply grows_trans; [exact Hw2|].
      apply grows_print.
    + exists w2. split; [eauto using grows_trans|].
      by rewrite Hrun, (bind_raise _ _ _ _ _ Hout).
Qed.

End class_processing.

(** ** Unreadable files and empty classes *)

Section tolerance.
Import utils.





(** the class of the sample tree is merged from its two readable files *)
Example process_class_skips_corrupt_file :
  ∃ metadata w' merged_df merged,
    process_class sample.merger_a ["data"; "b"]
                  (sample.disk sample.tree_with_empty_class) = (Ret metadata, w') ∧
    metadata !! "merged_df" = Some (PFrame merged_df) ∧
    frames w' !! merged_df = Some merged ∧
    columns merged = ["Channel"; "X"; "Y"; "Z"; "X_Ex2"] ∧
    len merged = 2.
Proof.
  eexists _, _, _, _.
  split_and!; [vm_compute; reflexivity | reflexivity | reflexivity | reflexivity
              | reflexivity].
Qed.

(** The summary of a dictionary that has no ['total_rows'] entry raises. *)
Lemma print_meta_missing_total (metadata : gmap string pyval) c files w :
  metadata !! "class" = Some c →
  metadata !! "files" = Some (PFiles files) →
  metadata !! "total_rows" = None →
  ∃ w', print_meta metadata w = (Raise (KeyError "total_rows"), w').
Proof.
  intros Hc Hf Hr. unfold print_meta.
  rewrite (bind_ret _ _ _ _ _ (getkey_run _ _ _ _ Hc)).
  rewrite !(bind_ret _ _ _ _ _ (print_run _ _)).
  rewrite (bind_ret _ _ _ _ _ (getkey_run _ _ _ _ Hf)).
  cbn [py_len].
  erewrite bind_ret; [|reflexivity].
  rewrite !(bind_ret _ _ _ _ _ (print_run _ _)).
  unfold getkey at 1. rewrite Hr. eexists. reflexivity.
Qed.

Lemma class_merge_no_csv_files tree class_folder :
  csv_files_of tree class_folder = [] → class_merge tree class_folder = Some empty_frame.
Proof. intros H. unfold class_merge. by rewrite H. Qed.

(** A class folder without CSV files gets a dictionary without totals, on
    which the summary raises. *)
Lemma process_class_no_csv_files self class_folder w :
  csv_files_of (fs w) class_folder = [] →
  ∃ metadata w1,
    process_class self class_folder w = (Ret metadata, w1) ∧
    metadata !! "total_rows" = None ∧
    ∀ w2, ∃ w3, print_meta metadata w2 = (Raise (KeyError "total_rows"), w3).
Proof.
  intros Hnone.
  destruct (process_class_run self class_folder w) as (w' & _ & Hrun).
  rewrite (class_merge_no_csv_files _ _ Hnone) in Hrun.
  destruct Hrun as (metadata & merged_df & Hrun & Hclass & _ & _ & Hcase).
  rewrite Hnone in Hcase. destruct Hcase as (Hfiles & Hrows & _).
  exists metadata, w'. split_and!; [done..|].
  intros w2. by eapply print_meta_missing_total.
Qed.

(** C1, at the failing input: the root holds an empty class folder [a]
    next to a class [b] with readable files. Class [a] is processed and
    class [b] is merged and saved, but the final summary raises a
    [KeyError], because the dictionary returned for the empty class has no
    totals. With a class whose only file is unreadable the run completes. *)
Theorem run_empty_class_raises :
  (∃ w', run sample.merger_a None (sample.disk sample.tree_with_empty_class)
         = (Raise (KeyError "total_rows"), w') ∧
         saved_files (trace w') <> []) ∧
  (∃ w', run sample.merger_a None (sample.disk sample.tree_with_corrupt_class)
         = (Ret tt, w')).
Proof.
  split.
  - eexists. split; [vm_compute; reflexivity|]. vm_compute. discriminate.
  - eexists. vm_compute. reflexivity.
Qed.

End tolerance.

(** ** The run *)

Section run_loop.
Import utils.

Lemma prints_only_refl w : prints_only w w.
Proof. by split_and!. Qed.

Lemma prints_only_trans w1 w2 w3 :
  prints_only w1 w2 → prints_only w2 w3 → prints_only w1 w3.
Proof. intros (?&?&?) (?&?&?). split_and!; congruence. Qed.

Lemma bind_prints_only {A B} (m : M A) (k : A → M B) w :
  prints_only w (m w).2 →
  (∀ a w1, prints_only w1 (k a w1).2) →
  prints_only w (bind m k w).2.
Proof.
  unfold bind. destruct (m w) as [[a|e] w1]; cbn [snd]; intros H1 H2; [|done].
  eapply prints_only_trans; [exact H1 | apply H2].
Qed.

Lemma print_prints_only line w : prints_only w (print line w).2.
Proof. split_and!; [done | done | apply saved_files_print]. Qed.

Lemma getkey_prints_only (d : gmap string pyval) k w : prints_only w (getkey d k w).2.
Proof. unfold getkey. destruct (d !! k); apply prints_only_refl. Qed.

Lemma as_files_prints_only v w : prints_only w (as_files v w).2.
Proof. destruct v; apply prints_only_refl. Qed.

Lemma get_prints_only l w : prints_only w (frame.get l w).2.
Proof. rewrite get_world. apply prints_only_refl. Qed.

Lemma py_len_prints_only v w : prints_only w (py_len v w).2.
Proof.
  destruct v; try apply prints_only_refl. cbn [py_len].
  apply bind_prints_only; [apply get_prints_only|]. intros ? ?. apply prints_only_refl.
Qed.

Lemma py_bool_prints_only v w : prints_only w (py_bool v w).2.
Proof. destruct v; apply prints_only_refl. Qed.

Lemma print_files_prints_only files w : prints_only w (print_files files w).2.
Proof.
  revert w. induction files as [|f files IH]; intros w; [apply prints_only_refl|].
  cbn [print_files]. apply bind_prints_only; [apply print_prints_only|]. intros _ w1. apply IH.
Qed.


Lemma print_details_prints_only v w : prints_only w (print_details v w).2.
Proof.
  destruct v as [s|n|l|l]; cbn [print_details].
  - destruct (String.eqb s ""); apply prints_only_refl.
  - apply prints_only_refl.
  - apply print_files_prints_only.
  - apply bind_prints_only; [apply get_prints_only|]. intros df ?.
    destruct (columns df); apply prints_only_refl.
Qed.

Lemma print_meta_prints_only meta w : prints_only w (print_meta meta w).2.
Proof.
  unfold print_meta.
  do 12 (apply bind_prints_only;
         [ first [apply print_prints_only | apply getkey_prints_only
                 | apply py_len_prints_only | apply py_bool_prints_only]
         | intros ? ? ]).
  match goal with
  | |- prints_only _ ((if ?b then _ else _) _).2 => destruct b
  end; [|apply prints_only_refl].
  apply bind_prints_only; [apply print_prints_only|]. intros _ ?.
  apply print_details_prints_only.
Qed.

Lemma print_metas_prints_only all_metadata w :
  prints_only w (print_metas all_metadata w).2.
Proof.
  revert w. induction all_metadata as [|meta rest IH]; intros w;
    [apply prints_only_refl|].
  cbn [print_metas]. apply bind_prints_only; [apply print_meta_prints_only|].
  intros _ w1. apply IH.
Qed.

(** Whether it returns or raises, the summary only prints. *)
Lemma print_summary_prints_only self all_metadata w :
  prints_only w (print_summary self all_metadata w).2.
Proof.
  unfold print_summary.
  do 4 (apply bind_prints_only; [apply print_prints_only | intros _ ?]).
  apply print_metas_prints_only.
Qed.

End run_loop.

Section run_outputs.
Import utils.

Lemma keep_dirs_run items w :
  keep_dirs items w =
  (Ret (List.filter (fun item => match fs w !! item with Some Dir => true | _ => false end)
                    items), w).
Proof.
  induction items as [|item rest IH]; [done|].
  cbn [keep_dirs List.filter]. unfold bind at 1, os.is_dir at 1.
  rewrite (bind_ret _ _ _ _ _ IH). unfold ret.
  by destruct (fs w !! item) as [[|c]|].
Qed.

Lemma get_class_folders_run self w :
  fs w !! root_path self = Some Dir →
  get_class_folders self w = (Ret (class_folders_of (fs w) (root_path self)), w).
Proof.
  intros Hroot. unfold get_class_folders, bind at 1, os.iterdir. rewrite Hroot.
  apply keep_dirs_run.
Qed.



Lemma path_parent_join p name : path_parent (path_join p name) = p.
Proof. apply removelast_last. Qed.

Lemma path_join_ne p name : path_join p name ≠ p.
Proof.
  unfold path_join. intros H. apply (f_equal length) in H.
  rewrite length_app in H. cbn in H. lia.
Qed.


Lemma to_csv_run l p w df :
  frames w !! l = Some df →
  fs w !! p ≠ Some Dir →
  fs w !! path_parent p = Some Dir →
  os.to_csv l p w =
  (Ret tt, World (frames w) (<[p := File (Table (written df))]> (fs w))
                 (trace w ++ [Saved p df])).
Proof.
  intros Hl Hp Hparent. unfold os.to_csv.
  rewrite (bind_ret _ _ _ _ _ (get_live _ _ _ Hl)). rewrite Hparent.
  by destruct (fs w !! p) as [[|c]|].
Qed.

Lemma mkdir_run out w :
  usable_output (fs w) out →
  ∃ t, os.mkdir_exist_ok out w = (Ret tt, World (frames w) (after_mkdir (fs w) out) t) ∧
       saved_files t = saved_files (trace w).
Proof.
  intros [[Hdir | (Hnone & Hne & Hparent)] _]; unfold os.mkdir_exist_ok, after_mkdir.
  - rewrite Hdir. exists (trace w). by rewrite world_eta.
  - rewrite Hnone. destruct out as [|c out]; [done|]. rewrite Hparent.
    eexists. split; [reflexivity|]. rewrite saved_files_app. apply app_nil_r.
Qed.

Lemma after_mkdir_dir tree out :
  usable_output tree out → after_mkdir tree out !! out = Some Dir.
Proof.
  intros [[Hdir | (Hnone & _)] _]; unfold after_mkdir.
  - by rewrite Hdir.
  - rewrite Hnone. apply lookup_insert_eq.
Qed.

Lemma after_mkdir_keeps_dir tree out p :
  tree !! p = Some Dir → after_mkdir tree out !! p = Some Dir.
Proof.
  intros Hp. unfold after_mkdir. destruct (tree !! out) eqn:E; [done|].
  rewrite lookup_insert_ne; [done|]. intros ->. congruence.
Qed.

Lemma after_mkdir_targets tree out :
  usable_output tree out →
  ∀ c, after_mkdir tree out !! path_join out (c +:+ "_merged.csv") ≠ Some Dir.
Proof.
  intros [_ Hfree] c. unfold after_mkdir. destruct (tree !! out) eqn:E; [apply Hfree|].
  rewrite lookup_insert_ne; [apply Hfree|]. apply not_eq_sym, path_join_ne.
Qed.


(** One turn of the class loop on a class whose merge returns: the
    dictionary is kept, and the merged table is saved when it is not empty. *)
Lemma process_all_step self out class_folder rest all_metadata w metadata w1 l m :
  process_class self class_folder w = (Ret metadata, w1) →
  metadata !! "class" = Some (PStr (path_name class_folder)) →
  metadata !! "merged_df" = Some (PFrame l) →
  frames w1 !! l = Some m →
  fs w1 !! out = Some Dir →
  (∀ c, fs w1 !! path_join out (c +:+ "_merged.csv") ≠ Some Dir) →
  process_all self out (class_folder :: rest) all_metadata w =
  process_all self out rest (all_metadata ++ [metadata])
    (if empty m then w1
     else
       let output_file := path_join out (path_name class_folder +:+ "_merged.csv") in
       World (frames w1) (<[output_file := File (Table (written m))]> (fs w1))
             (trace w1 ++ [Saved output_file m]
                       ++ [Print ("  Saved: " +:+ os.path_str output_file)])).
Proof.
  intros Hrun Hclass Hkey Hl Hout Hfree. cbn [process_all].
  rewrite (bind_ret _ _ _ _ _ Hrun).
  rewrite (bind_ret _ _ _ _ _ (getkey_run _ _ _ _ Hkey)). cbn [as_frame].
  erewrite bind_ret; [|reflexivity].
  rewrite (bind_ret _ _ _ _ _ (get_live _ _ _ Hl)).
  destruct (empty m) eqn:Hempty; cbn [negb].
  - by erewrite bind_ret; [|reflexivity].
  - cbn zeta.
    set (target := path_join out (path_name class_folder +:+ "_merged.csv")).
    assert (os.to_csv l target w1 =
            (Ret tt, World (frames w1) (<[target := File (Table (written m))]> (fs w1))
                           (trace w1 ++ [Saved target m]))) as Hcsv.
    { apply to_csv_run; [done | apply Hfree|].
      unfold target. by rewrite path_parent_join. }
    erewrite bind_ret; last first.
    { rewrite (bind_ret _ _ _ _ _ (getkey_run _ _ _ _ Hclass)). cbn [fmt_val].
      fold target. rewrite (bind_ret _ _ _ _ _ Hcsv). apply print_run. }
    cbn [frames fs trace]. by rewrite <- app_assoc.
Qed.

(** The class loop saves what [run_outputs] says, whether it completes or
    a merge raises on the way. *)
Lemma process_all_saved self out class_folders :
  ∀ all_metadata w,
    fs w !! out = Some Dir →
    (∀ c, fs w !! path_join out (c +:+ "_merged.csv") ≠ Some Dir) →
    saved_files (trace (process_all self out class_folders all_metadata w).2) =
      saved_files (trace w) ++ run_outputs (fs w) out class_folders ∧
    fs (process_all self out class_folders all_metadata w).2 !! out = Some Dir.
Proof.
  induction class_folders as [|class_folder rest IH]; intros all_metadata w Hout Hfree.
  - cbn [process_all run_outputs ret snd]. by rewrite app_nil_r.
  - cbn [run_outputs].
    destruct (process_class_run self class_folder w)
      as (w1 & (Hfs1 & Hsaved1 & Hkeep1) & Hrun).
    destruct (class_merge (fs w) class_folder) as [m|].
    + destruct Hrun as (metadata & l & Hrun & Hclass & Hkey & Hl & _).
      rewrite (process_all_step self out class_folder rest all_metadata w metadata w1 l m
                 Hrun Hclass Hkey Hl);
        [| by rewrite Hfs1 | intros c; rewrite Hfs1; apply Hfree].
      destruct (empty m) eqn:Hempty.
      * destruct (IH (all_metadata ++ [metadata]) w1) as [Hs Ho].
        { by rewrite Hfs1. }
        { intros c. rewrite Hfs1. apply Hfree. }
        rewrite Hs, Ho, Hsaved1, Hfs1. done.
      * cbn zeta.
        set (target := path_join out (path_name class_folder +:+ "_merged.csv")).
        set (w2 := World _ _ _).
        destruct (IH (all_metadata ++ [metadata]) w2) as [Hs Ho].
        { unfold w2. cbn [fs]. rewrite lookup_insert_ne; [by rewrite Hfs1|].
          apply path_join_ne. }
        { intros c. unfold w2. cbn [fs].
          destruct (decide (target = path_join out (c +:+ "_merged.csv"))) as [<-|Hne].
          - by rewrite lookup_insert_eq.
          - rewrite lookup_insert_ne by done. rewrite Hfs1. apply Hfree. }
        rewrite Hs, Ho. split; [|done]. unfold w2. cbn [trace fs].
        rewrite !saved_files_app, Hsaved1, Hfs1. cbn [saved_files omap list_omap].
        by rewrite <- !app_assoc.
    + cbn [process_all]. rewrite (bind_raise _ _ _ _ _ Hrun). cbn [snd].
      rewrite Hsaved1, Hfs1, app_nil_r. done.
Qed.

End run_outputs.

Section run_properties.
Import utils.

(** C9, as the code has it. When the output location is usable (the output
    directory exists, or is absent with an existing parent directory, and no
    directory stands at an output file's path), the run creates the output
    directory if absent and goes through the class folders in sorted order:
    for each class whose merged table is not empty it writes that table
    under [<class>_merged.csv] in the output directory, and for a class
    whose merged table is empty it writes nothing; a class whose merge
    raises ends the run, the files of the classes before it being written.
    The files written are those of [run_outputs], whether the summary then
    completes or raises; and the merged table of a class is the one
    [process_class] returns for it. *)
Theorem run_saves_non_empty_classes self output_dir w :
  fs w !! root_path self = Some Dir →
  usable_output (fs w) (output_location self output_dir) →
  fs (run self output_dir w).2 !! output_location self output_dir = Some Dir ∧
  saved_files (trace (run self output_dir w).2) =
    saved_files (trace w)
    ++ run_outputs (after_mkdir (fs w) (output_location self output_dir))
         (output_location self output_dir)
         (os.sorted (class_folders_of
                       (after_mkdir (fs w) (output_location self output_dir))
                       (root_path self))) ∧
  ∀ class_folder w0,
    match class_merge (fs w0) class_folder with
    | Some merged =>
        ∃ metadata w1 merged_df,
          process_class self class_folder w0 = (Ret metadata, w1) ∧
          metadata !! "class" = Some (PStr (path_name class_folder)) ∧
          metadata !! "merged_df" = Some (PFrame merged_df) ∧
          frames w1 !! merged_df = Some merged
    | None =>
        ∃ w1, process_class self class_folder w0 = (Raise frame.alignment_error, w1)
    end.
Proof.
  intros Hroot Husable. split_and!; last first.
  { intros class_folder w0.
    destruct (process_class_run self class_folder w0) as (w1 & _ & Hrun).
    destruct (class_merge (fs w0) class_folder) as [m|]; [|eauto].
    destruct Hrun as (metadata & l & Hrun & Hclass & Hkey & Hl & _).
    by exists metadata, w1, l. }
  all: unfold run; cbn zeta; fold (output_location self output_dir);
    set (out := output_location self output_dir) in *;
    destruct (mkdir_run out w Husable) as (t & Hmk & Ht);
    rewrite (bind_ret _ _ _ _ _ Hmk);
    rewrite !(bind_ret _ _ _ _ _ (print_run _ _)); cbn [frames fs trace];
    set (w1 := World _ _ _);
    assert (fs w1 = after_mkdir (fs w) out) as Hfs1 by done;
    assert (saved_files (trace w1) = saved_files (trace w)) as Hs1
      by (unfold w1; cbn [trace]; by rewrite !saved_files_print);
    clearbody w1;
    assert (fs w1 !! root_path self = Some Dir) as Hroot1
      by (rewrite Hfs1; by apply after_mkdir_keeps_dir);
    rewrite (bind_ret _ _ _ _ _ (get_class_folders_run self w1 Hroot1));
    rewrite Hfs1;
    (destruct (class_folders_of (after_mkdir (fs w) out) (root_path self))
      as [|class_folder rest] eqn:Hfolders;
     [ rewrite (bind_ret _ _ _ _ _ (print_run _ _));
       cbn [snd print fs trace frames run_outputs os.sorted foldr]
     | rewrite <- Hfolders; rewrite (bind_ret _ _ _ _ _ (print_run _ _));
       set (w2 := World _ _ _);
       destruct (process_all_saved self out
                   (os.sorted (class_folders_of (after_mkdir (fs w) out) (root_path self)))
                   [] w2) as [Hsaved Hout];
       [ unfold w2; cbn [fs]; rewrite Hfs1; by apply after_mkdir_dir
       | unfold w2; cbn [fs]; rewrite Hfs1; by apply after_mkdir_targets
       | unfold bind at 1;
         destruct (process_all self out _ [] w2) as [[metas|e] w3]; cbn [snd] in *;
         [ destruct (print_summary_prints_only self metas w3) as (Hfr & Hfs & Htr);
           rewrite ?Hfs, ?Htr | ] ] ]).
  - by rewrite !saved_files_print, app_nil_r.
  - rewrite Hsaved. unfold w2. cbn [trace fs]. by rewrite saved_files_print, Hs1, Hfs1.
  - rewrite Hsaved. unfold w2. cbn [trace fs]. by rewrite saved_files_print, Hs1, Hfs1.
  - rewrite Hfs1. by apply after_mkdir_dir.
  - done.
  - done.
Qed.

Lemma run_saves_non_empty_classes_witness :
  fs (run sample.merger_a None (sample.disk sample.tree_with_two_classes)).2
    !! output_location sample.merger_a None = Some Dir ∧
  saved_files
    (trace (run sample.merger_a None (sample.disk sample.tree_with_two_classes)).2) =
    saved_files (trace (sample.disk sample.tree_with_two_classes))
    ++ run_outputs (after_mkdir sample.tree_with_two_classes
                                (output_location sample.merger_a None))
         (output_location sample.merger_a None)
         (os.sorted (class_folders_of
                       (after_mkdir sample.tree_with_two_classes
                                    (output_location sample.merger_a None))
                       (root_path sample.merger_a))) ∧
  ∀ class_folder w0,
    match class_merge (fs w0) class_folder with
    | Some merged =>
        ∃ metadata w1 merged_df,
          process_class sample.merger_a class_folder w0 = (Ret metadata, w1) ∧
          metadata !! "class" = Some (PStr (path_name class_folder)) ∧
          metadata !! "merged_df" = Some (PFrame merged_df) ∧
          frames w1 !! merged_df = Some merged
    | None =>
        ∃ w1, process_class sample.merger_a class_folder w0
              = (Raise frame.alignment_error, w1)
    end.
Proof.
  apply (run_saves_non_empty_classes sample.merger_a None
           (sample.disk sample.tree_with_two_classes)).
  - reflexivity.
  - split.
    + right. split_and!; [reflexivity | intros H; vm_compute in H; discriminate H
                         | reflexivity].
    + intros c. unfold sample.disk, sample.tree_with_two_classes. cbn [fs].
      rewrite (not_elem_of_list_to_map_1 _ _); [discriminate|].
      cbn [fmap list_fmap fst]. unfold output_location, path_join. cbn.
      rewrite !not_elem_of_cons. split_and!; try discriminate. apply not_elem_of_nil.
Defined.

(** the files due on the sample tree: one, for class [b] *)
Example run_outputs_two_classes :
  (fun s => s.1) <$>
    run_outputs (after_mkdir sample.tree_with_two_classes ["project"; "outputs"])
                ["project"; "outputs"] [["data"; "b"]; ["data"; "c"]]
  = [["project"; "outputs"; "b_merged.csv"]].
Proof. vm_compute. reflexivity. Qed.

(** On the sample tree the run saves one file, for class [b]; class [c],
    whose only file has no rows, gets none. *)
Example run_two_classes_saved :
  (fun s => s.1) <$>
    saved_files (trace (run sample.merger_a None
                            (sample.disk sample.tree_with_two_classes)).2)
  = [["project"; "outputs"; "b_merged.csv"]].
Proof. vm_compute. reflexivity. Qed.

(** C9, as stated, fails: when the parent of the output directory does not
    exist, the directory is not created, the run raises before any class is
    processed, and class [b], whose merged table would not be empty, gets no
    file. *)
Lemma run_output_parent_missing :
  run sample.merger_a (Some ["missing"; "outputs"])
      (sample.disk sample.tree_with_two_classes)
  = (Raise (FileNotFoundError "missing/outputs"),
     sample.disk sample.tree_with_two_classes) ∧
  fs (sample.disk sample.tree_with_two_classes) !! ["missing"; "outputs"] = None ∧
  ∃ metadata w' merged_df merged,
    process_class sample.merger_a ["data"; "b"]
                  (sample.disk sample.tree_with_two_classes) = (Ret metadata, w') ∧
    metadata !! "merged_df" = Some (PFrame merged_df) ∧
    frames w' !! merged_df = Some merged ∧
    empty merged = false.
Proof.
  split_and!; [vm_compute; reflexivity | reflexivity |].
  eexists _, _, _, _.
  split_and!; [vm_compute; reflexivity | reflexivity | reflexivity | reflexivity].
Qed.

End run_properties.

(** * Further properties *)

(** ** The merged table *)

Section merged_table.
Import utils.











End merged_table.

(** ** Suffixes of different tables *)

Section suffixes.
Import utils.

Lemma to_uint_nat_nonnil n : Nat.to_uint n ≠ Decimal.Nil.
Proof.
  rewrite <- (DecimalNat.Unsigned.of_to n), DecimalNat.Unsigned.to_of.
  apply DecimalFacts.unorm_nonnil.
Qed.

Lemma to_uint_N_nonnil n : N.to_uint n ≠ Decimal.Nil.
Proof.
  rewrite <- (DecimalN.Unsigned.of_to n), DecimalN.Unsigned.to_of.
  apply DecimalFacts.unorm_nonnil.
Qed.

(** decimal printing is injective *)
Lemma str_nat_inj m n : str_nat m = str_nat n → m = n.
Proof.
  unfold str_nat. intros H. apply DecimalNat.Unsigned.to_uint_inj.
  apply (f_equal NilZero.uint_of_string) in H.
  rewrite !NilZero.usu in H by apply to_uint_nat_nonnil. congruence.
Qed.

Lemma str_N_inj m n : str_N m = str_N n → m = n.
Proof.
  unfold str_N. intros H. apply DecimalN.Unsigned.to_uint_inj.
  apply (f_equal NilZero.uint_of_string) in H.
  rewrite !NilZero.usu in H by apply to_uint_N_nonnil. congruence.
Qed.

Lemma str_nat_not_Ex n s : str_nat n ≠ "Ex" +:+ s.
Proof. unfold str_nat. destruct (Nat.to_uint n); discriminate. Qed.

(** X7. Two tables at different positions of one merge get the same suffix only
    when both file names yield the same non-zero exercise number: positional
    suffixes differ from one another and from every exercise suffix. *)
Theorem suffix_collision i j name1 name2 :
  i ≠ j →
  suffix_for i name1 = suffix_for j name2 →
  ∃ n, n ≠ 0%N ∧
       extract_ex_number name1 = Some n ∧ extract_ex_number name2 = Some n.
Proof.
  intros Hij. unfold suffix_for.
  destruct (extract_ex_number name1) as [a|], (extract_ex_number name2) as [b|];
    cbn [truthy_int fmt_int];
    repeat match goal with
      | |- context [(?x =? 0)%N] => destruct (N.eqb_spec x 0)
      end; cbn [negb]; intros H;
    try (injection H as H; first [ by apply str_nat_inj in H
                                 | by apply str_nat_not_Ex in H
                                 | by symmetry in H; apply str_nat_not_Ex in H
                                 | idtac ]).
  apply str_N_inj in H. subst b. by exists a.
Qed.

Lemma suffix_collision_witness :
  ∃ n, n ≠ 0%N ∧
       extract_ex_number "Ex2.csv" = Some n ∧
       extract_ex_number "Ex2_repeat.csv" = Some n.
Proof. apply (suffix_collision 2 3); [lia | reflexivity]. Defined.

End suffixes.

(** ** What the merge keeps of the first table *)

Section first_table.
Import utils.












Lemma zip_take_length {A B} (l : list A) (k : list B) :
  zip (take (length k) l) k = zip l k.
Proof.
  revert k. induction l as [|a l IH]; intros [|b k]; cbn; [done..|].
  by rewrite IH.
Qed.

(** X8. Tables are paired with file names position by position, so a table
    without a file name at its position is not merged: the call behaves as
    if the list of tables ended where the list of names ends. *)
Theorem merge_ignores_unnamed_tables self first_df rest file_names w :
  merge_dataframes self (first_df :: rest) file_names w =
  merge_dataframes self (first_df :: take (length (tail file_names)) rest) file_names w.
Proof.
  unfold merge_dataframes. cbn [tail]. by rewrite zip_take_length.
Qed.

End first_table.

(** ** A first table without rows *)

Section header_only_first.
Import utils.







End header_only_first.

(** ** Folder and file discovery *)

Section discovery.
Import utils.

Lemma elem_of_children tree p q :
  q ∈ os.children tree p ↔ is_Some (tree !! q) ∧ q ≠ [] ∧ path_parent q = p.
Proof.
  unfold os.children. rewrite list_elem_of_In, filter_In, <- list_elem_of_In.
  unfold os.is_child. rewrite bool_decide_eq_true.
  rewrite list_elem_of_fmap. split.
  - intros [([k v] & -> & Hkv) Hc]. apply elem_of_map_to_list in Hkv.
    cbn [fst]. split; [eauto | exact Hc].
  - intros [[v Hv] Hc]. split; [|exact Hc].
    exists (q, v). split; [done | by apply elem_of_map_to_list].
Qed.

Lemma NoDup_filter_bool {A} (f : A → bool) (l : list A) :
  NoDup l → NoDup (List.filter f l).
Proof.
  induction 1 as [|x l Hx _ IH]; cbn [List.filter]; [constructor|].
  destruct (f x); [|done]. constructor; [|done].
  rewrite list_elem_of_In, filter_In, <- list_elem_of_In. tauto.
Qed.

Lemma NoDup_children tree p : NoDup (os.children tree p).
Proof. apply NoDup_filter_bool, NoDup_fst_map_to_list. Qed.

(** X9. The class folders are exactly the entries directly under the root that
    are directories, each listed once; files next to them are left out, and
    so is anything deeper. *)
Theorem get_class_folders_spec self w :
  fs w !! root_path self = Some Dir →
  ∃ class_folders,
    get_class_folders self w = (Ret class_folders, w) ∧
    NoDup class_folders ∧
    ∀ p : path, p ∈ class_folders ↔
         (p ≠ [] ∧ path_parent p = root_path self ∧ fs w !! p = Some Dir).
Proof.
  intros Hroot. exists (class_folders_of (fs w) (root_path self)).
  split; [by apply get_class_folders_run|]. unfold class_folders_of.
  split; [apply NoDup_filter_bool, NoDup_children|].
  intros p. rewrite list_elem_of_In, filter_In, <- list_elem_of_In, elem_of_children.
  split.
  - intros [(_ & Hne & Hparent) Hdir]. split_and!; [done..|].
    cbn beta in Hdir. revert Hdir. by destruct (fs w !! p) as [[|c]|].
  - intros (Hne & Hparent & Hdir). rewrite Hdir. split_and!; eauto.
Qed.

Lemma get_class_folders_spec_witness :
  ∃ class_folders,
    get_class_folders sample.merger_a (sample.disk sample.tree_with_empty_class)
    = (Ret class_folders, sample.disk sample.tree_with_empty_class) ∧
    NoDup class_folders ∧
    ∀ p : path, p ∈ class_folders ↔
         (p ≠ [] ∧ path_parent p = root_path sample.merger_a ∧
          fs (sample.disk sample.tree_with_empty_class) !! p = Some Dir).
Proof. apply get_class_folders_spec. reflexivity. Defined.

Lemma natural_insert_Permutation f sorted : natural_insert f sorted ≡ₚ f :: sorted.
Proof.
  induction sorted as [|g rest IH]; [done|].
  cbn [natural_insert]. destruct (natural_le f g); [done|].
  rewrite IH. apply Permutation_swap.
Qed.

Lemma natural_sort_files_Permutation files : natural_sort_files files ≡ₚ files.
Proof.
  induction files as [|f rest IH]; [done|].
  unfold natural_sort_files in *. cbn [foldr].
  rewrite natural_insert_Permutation. by f_equiv.
Qed.

(** X10. Listing the CSV files of a class never raises and has no effect. The
    result holds, each once, exactly the entries directly inside the folder
    whose name ends in ".csv"; a folder that is missing or is a file gives
    the empty list. *)
Theorem get_csv_files_spec self class_folder w :
  ∃ csv_files,
    get_csv_files self class_folder w = (Ret csv_files, w) ∧
    NoDup csv_files ∧
    ∀ p : path, p ∈ csv_files ↔
         (fs w !! class_folder = Some Dir ∧ is_Some (fs w !! p) ∧ p ≠ [] ∧
          path_parent p = class_folder ∧ ends_with ".csv" (path_name p) = true).
Proof.
  exists (csv_files_of (fs w) class_folder). split; [apply get_csv_files_run|].
  unfold csv_files_of. split.
  - rewrite natural_sort_files_Permutation.
    destruct (fs w !! class_folder) as [[|c]|]; try apply NoDup_nil_2.
    apply NoDup_filter_bool, NoDup_children.
  - intros p. rewrite natural_sort_files_Permutation.
    destruct (fs w !! class_folder) as [[|c]|] eqn:E.
    + rewrite list_elem_of_In, filter_In, <- list_elem_of_In, elem_of_children. tauto.
    + split; [by intros ?%elem_of_nil | by intros [? _]].
    + split; [by intros ?%elem_of_nil | by intros [? _]].
Qed.

End discovery.

(** ** Effects of reading and of processing a class *)

Section class_effects.
Import utils.

(** X11. Safe reading always returns a new frame object and touches nothing
    else: the file system and the live frames are as before, and exactly one
    warning line, naming the file, is printed when the file could not be
    read, none when it could. *)
Theorem read_csv_safely_effects self file_path w :
  ∃ df success w',
    read_csv_safely self file_path w = (Ret (df, success), w') ∧
    frames w !! df = None ∧
    is_Some (frames w' !! df) ∧
    (∀ l x, frames w !! l = Some x → frames w' !! l = Some x) ∧
    fs w' = fs w ∧
    trace w' =
      trace w ++ (if success then []
                  else [Print ("  Error reading " +:+ path_name file_path)]).
Proof.
  destruct (loads (fs w) file_path) as [table|] eqn:E.
  - eexists _, _, _. split; [by apply read_csv_safely_loads|]. cbn [frames fs trace].
    split_and!; [apply new_fresh_lookup | rewrite lookup_insert_eq; eauto | | done
                | by rewrite app_nil_r].
    intros l x Hl. rewrite lookup_insert_ne; [done|].
    apply not_eq_sym. by apply live_not_fresh with x.
  - eexists _, _, _. split; [by apply read_csv_safely_fails|]. cbn [frames fs trace].
    split_and!; [apply new_fresh_lookup | rewrite lookup_insert_eq; eauto | | done | done].
    intros l x Hl. rewrite lookup_insert_ne; [done|].
    apply not_eq_sym. by apply live_not_fresh with x.
Qed.



(** a class whose second file repeats a row label: processing raises *)
Example process_class_repeated_labels_raises :
  ∃ w', process_class sample.merger_a ["data"; "b"]
          (sample.disk sample.tree_with_repeated_labels)
        = (Raise frame.alignment_error, w').
Proof. eexists. vm_compute. reflexivity. Qed.

Lemma omap_info_of_nil tree files :
  omap (loads tree) files = [] → omap (info_of tree) files = [].
Proof.
  induction files as [|p rest IH]; [done|]. cbn [omap list_omap].
  unfold info_of at 1. destruct (loads tree p); [done | exact IH].
Qed.




(** X14. When a class folder has CSV files and none of them can be read, the
    dictionary has an empty file list, totals 0 and an empty merged table,
    and it has every entry the summary reads. *)
Theorem process_class_none_readable self class_folder w csv_files :
  get_csv_files self class_folder w = (Ret csv_files, w) →
  csv_files ≠ [] →
  omap (loads (fs w)) csv_files = [] →
  ∃ metadata w' merged_df,
    process_class self class_folder w = (Ret metadata, w') ∧
    metadata !! "merged_df" = Some (PFrame merged_df) ∧
    frames w' !! merged_df = Some empty_frame ∧
    metadata !! "files" = Some (PFiles []) ∧
    metadata !! "total_rows" = Some (PInt 0) ∧
    metadata !! "total_columns" = Some (PInt 0) ∧
    complete_metadata metadata.
Proof.
  intros Hcsv Hne Hnone. rewrite get_csv_files_run in Hcsv. injection Hcsv as <-.
  destruct (process_class_run self class_folder w) as (w' & _ & Hrun).
  unfold class_merge in Hrun. rewrite Hnone in Hrun. cbn [merged_table] in Hrun.
  destruct Hrun as (metadata & l & Hrun & Hclass & Hkey & Hl & Hcase).
  destruct (csv_files_of (fs w) class_folder) as [|p rest] eqn:Hfiles; [done|].
  destruct Hcase as (Hf & Hr & Hc).
  rewrite (omap_info_of_nil _ _ Hnone) in Hf.
  exists metadata, w', l. split_and!; try done.
  split_and!; eauto.
Qed.

Lemma process_class_none_readable_witness :
  ∃ metadata w' merged_df,
    process_class sample.merger_a ["data"; "a"]
                  (sample.disk sample.tree_with_corrupt_class) = (Ret metadata, w') ∧
    metadata !! "merged_df" = Some (PFrame merged_df) ∧
    frames w' !! merged_df = Some empty_frame ∧
    metadata !! "files" = Some (PFiles []) ∧
    metadata !! "total_rows" = Some (PInt 0) ∧
    metadata !! "total_columns" = Some (PInt 0) ∧
    complete_metadata metadata.
Proof.
  apply (process_class_none_readable sample.merger_a ["data"; "a"]
           (sample.disk sample.tree_with_corrupt_class)
           [["data"; "a"; "Ex1.csv"]]).
  - vm_compute. reflexivity.
  - discriminate.
  - reflexivity.
Defined.

End class_effects.

(** ** The summary *)

Section summary.
Import utils.

Lemma print_files_returns files w :
  ∃ w', print_files files w = (Ret tt, w').
Proof.
  revert w. induction files as [|f files IH]; intros w; [by eexists|].
  cbn [print_files]. rewrite (bind_ret _ _ _ _ _ (print_run _ _)). apply IH.
Qed.


Lemma print_meta_summarisable meta w :
  summarisable meta → ∃ w', print_meta meta w = (Ret tt, w').
Proof.
  intros ([c Hc] & Hf & [r Hr] & [cl Hcl]). unfold print_meta.
  rewrite (bind_ret _ _ _ _ _ (getkey_run _ _ _ _ Hc)).
  rewrite !(bind_ret _ _ _ _ _ (print_run _ _)).
  destruct Hf as [[files Hf] | Hf];
    rewrite (bind_ret _ _ _ _ _ (getkey_run _ _ _ _ Hf)); cbn [py_len];
    (erewrite bind_ret; [|reflexivity]);
    rewrite !(bind_ret _ _ _ _ _ (print_run _ _));
    rewrite (bind_ret _ _ _ _ _ (getkey_run _ _ _ _ Hr));
    rewrite !(bind_ret _ _ _ _ _ (print_run _ _));
    rewrite (bind_ret _ _ _ _ _ (getkey_run _ _ _ _ Hcl));
    rewrite !(bind_ret _ _ _ _ _ (print_run _ _));
    rewrite (bind_ret _ _ _ _ _ (getkey_run _ _ _ _ Hf)); cbn [py_bool];
    (erewrite bind_ret; [|reflexivity]).
  - destruct files as [|f files]; [by eexists|].
    rewrite bool_decide_eq_false_2 by done. cbn [negb].
    rewrite (bind_ret _ _ _ _ _ (print_run _ _)). apply print_files_returns.
  - cbn. by eexists.
Qed.

Lemma print_meta_returns_summarisable meta w a w' :
  print_meta meta w = (Ret a, w') → summarisable meta.
Proof.
  unfold print_meta, summarisable.
  destruct (meta !! "class") as [c|] eqn:Hc; last first.
  { unfold bind at 1, getkey at 1. rewrite Hc. discriminate. }
  rewrite (bind_ret _ _ _ _ _ (getkey_run _ _ _ _ Hc)).
  rewrite !(bind_ret _ _ _ _ _ (print_run _ _)).
  destruct (meta !! "files") as [f|] eqn:Hf; last first.
  { unfold bind at 1, getkey at 1. rewrite Hf. discriminate. }
  rewrite (bind_ret _ _ _ _ _ (getkey_run _ _ _ _ Hf)).
  set (w1 := World _ _ _). clearbody w1.
  destruct (py_len f w1) as [[n|e] w2] eqn:Hlen; last first.
  { rewrite (bind_raise _ _ _ _ _ Hlen). discriminate. }
  rewrite (bind_ret _ _ _ _ _ Hlen).
  rewrite !(bind_ret _ _ _ _ _ (print_run _ _)).
  destruct (meta !! "total_rows") as [r|] eqn:Hr; last first.
  { unfold bind at 1, getkey at 1. rewrite Hr. discriminate. }
  rewrite (bind_ret _ _ _ _ _ (getkey_run _ _ _ _ Hr)).
  rewrite !(bind_ret _ _ _ _ _ (print_run _ _)).
  destruct (meta !! "total_columns") as [cl|] eqn:Hcl; last first.
  { unfold bind at 1, getkey at 1. rewrite Hcl. discriminate. }
  rewrite (bind_ret _ _ _ _ _ (getkey_run _ _ _ _ Hcl)).
  rewrite !(bind_ret _ _ _ _ _ (print_run _ _)).
  rewrite (bind_ret _ _ _ _ _ (getkey_run _ _ _ _ Hf)).
  destruct f as [s|k|files|l].
  - cbn [py_bool]. erewrite bind_ret; [|reflexivity].
    destruct (String.eqb_spec s "") as [->|Hs]; cbn [negb].
    + intros _. split_and!; eauto.
    + rewrite (bind_ret _ _ _ _ _ (print_run _ _)). cbn [print_details].
      destruct (String.eqb_spec s ""); [done | discriminate].
  - discriminate Hlen.
  - intros _. split_and!; eauto.
  - cbn [py_bool]. unfold bind at 1, raise. discriminate.
Qed.

Lemma print_metas_returns_iff all_metadata w :
  (∃ w', print_metas all_metadata w = (Ret tt, w')) ↔
  Forall summarisable all_metadata.
Proof.
  revert w. induction all_metadata as [|meta rest IH]; intros w.
  - split; [constructor | by eexists].
  - cbn [print_metas]. split.
    + intros [w' H]. unfold bind in H.
      destruct (print_meta meta w) as [[a|e] w1] eqn:Hm; [|discriminate].
      constructor; [by eapply print_meta_returns_summarisable|].
      apply (IH w1). eauto.
    + intros [Hmeta Hrest]%Forall_cons.
      destruct (print_meta_summarisable meta w Hmeta) as [w1 Hw1].
      rewrite (bind_ret _ _ _ _ _ Hw1). by apply IH.
Qed.

(** X15. The summary returns when every dictionary has the four entries it
    reads (class, files, total rows, total columns), the entry for the files
    being a list of descriptors or the empty string, the values on which
    [len], the truth test and the loop over the descriptors go through; and
    it raises when some dictionary lacks one of the four entries. *)
Theorem print_summary_outcome self all_metadata w :
  (Forall summarisable all_metadata →
   ∃ w', print_summary self all_metadata w = (Ret tt, w')) ∧
  (Exists lacks_entry all_metadata →
   ∃ e w', print_summary self all_metadata w = (Raise e, w')).
Proof.
  unfold print_summary. rewrite !(bind_ret _ _ _ _ _ (print_run _ _)).
  set (w1 := World _ _ _). clearbody w1. split.
  - apply print_metas_returns_iff.
  - intros Hex. destruct (print_metas all_metadata w1) as [[[]|e] w'] eqn:Hrun;
      [|by eexists _, _].
    exfalso. assert (Forall summarisable all_metadata) as Hall
      by (apply (print_metas_returns_iff all_metadata w1); eauto).
    apply Exists_exists in Hex as (meta & Hin & Hlack).
    rewrite Forall_forall in Hall.
    destruct (Hall meta Hin) as ([c Hc] & Hf & [r Hr] & [cl Hcl]).
    destruct Hlack as [H|[H|[H|H]]]; try congruence.
    destruct Hf as [[files Hf]|Hf]; congruence.
Qed.

(** a dictionary whose files entry is the empty string is summarised *)
Example print_summary_empty_string :
  ∃ w', print_summary sample.merger_a
          [<["total_columns" := PInt 0]>
             (<["total_rows" := PInt 0]>
                (<["files" := PStr ""]> {["class" := PStr "a"]}))]
          (sample.disk sample.tree_without_classes) = (Ret tt, w').
Proof. eexists. vm_compute. reflexivity. Qed.

End summary.

(** ** When the run completes *)

Section run_completion.
Import utils.










End run_completion.

Section run_outcome.
Import utils.








(** A class holding a file whose row labels repeat makes the run raise in
    the class loop, before any file is saved and before the summary. *)
Example run_repeated_labels_raises :
  ∃ w', run sample.merger_a None (sample.disk sample.tree_with_repeated_labels)
        = (Raise frame.alignment_error, w') ∧
        saved_files (trace w') = [].
Proof. eexists. split; vm_compute; reflexivity. Qed.



End run_outcome.

(** ** The values a table contributes *)

Section contributed_values.
Import utils.




(** X16. The summary has no effect but printing, whether it returns or raises:
    frames and the file system are as before and no file is saved. *)
Theorem print_summary_only_prints self all_metadata w :
  frames (print_summary self all_metadata w).2 = frames w ∧
  fs (print_summary self all_metadata w).2 = fs w ∧
  saved_files (trace (print_summary self all_metadata w).2) = saved_files (trace w).
Proof. apply print_summary_prints_only. Qed.

End contributed_values.
